(** * htool security-token queries (examples/htool_security_tokens.c)

    A shallow embedding of the three token query commands of htool,
    [htool_get_tokens_in_set], [htool_get_token_set_count] and
    [htool_get_token_set_info], together with [get_rand_challenge_nonce].

    The C functions are straight-line code around calls into the rest of
    libhoth, OpenSSL and stdio.  The embedding keeps that shape:

    - everything the functions call but do not define (parameter lookup,
      [fopen], [RAND_bytes], the version probe, the two security-v2
      dispatchers) is a field of an environment [env];
    - the functions run in a small monad [M] over the local frame and the
      outside [world] (files, stdio streams, a log of every call), whose
      control component models [return], [goto cleanup] and the points at
      which C leaves the behaviour undefined;
    - header constants ([TOKEN_BYTE_SIZE], [MAX_TOKEN_RESPONSE_SIZE], the
      struct sizes, the command numbers) are fields of [constants].

    What the model keeps and what it leaves out:

    - a [FILE*] local is indeterminate until its declaration is executed;
      [goto cleanup] can skip that declaration, and [cleanup] testing the
      pointer is then a [fault];
    - a stream opened with "wb" truncates its file at once and holds what
      is written to it until [fclose]; two streams on one path overwrite
      each other from offset 0;
    - a destination local of a fixed dispatch ([num_ids], [boot_nonce],
      [signature], [info]) is declared without initialiser: it holds
      whatever the stack held, byte by byte, until the dispatcher stores
      into it, and [fwrite(&local, ...)] writes it as it is;
    - [fwrite] and [fclose] succeed (the code does not look at their
      results);
    - [printf] and [fprintf(stderr, ...)] are logged as [Ev_print]; stdout
      and stderr are not sinks. *)

From Stdlib Require Import ZArith.
From stdpp Require Import base tactics option list strings gmap.

Local Open Scope Z_scope.

Abbreviation byte := Byte.byte.

(** ** Constants taken from headers *)

(** The headers [htool_security_tokens.h], [htool_security_v2.h] and
    [host_commands.h] are not among the sources; what the code uses from
    them is a parameter of the development. *)
Record constants := {
  TOKEN_BYTE_SIZE : Z;
  MAX_TOKEN_RESPONSE_SIZE : Z;
  sizeof_nonce : Z;                      (* sizeof(struct nonce) *)
  sizeof_boot_nonce : Z;                 (* sizeof(struct boot_nonce) *)
  sizeof_signature : Z;  (* sizeof(struct detached_challenge_response_signature) *)
  sizeof_token_set_info : Z;             (* sizeof(struct token_set_info) *)
  HOTH_SECURITY_V2_REQUEST_SIZE : Z -> Z;
  HOTH_SECURITY_V2_RESPONSE_SIZE : Z -> Z;
  HOTH_PRV_CMD_HOTH_SECURITY_V2_TOKENS_MAJOR_COMMAND : Z;
  HOTH_PRV_CMD_HOTH_SECURITY_V2_GET_TOKENS_IN_SET_MINOR_COMMAND : Z;
  HOTH_PRV_CMD_HOTH_SECURITY_V2_GET_TOKEN_SET_COUNT_MINOR_COMMAND : Z;
  HOTH_PRV_CMD_HOTH_SECURITY_V2_GET_TOKEN_SET_INFO_MINOR_COMMAND : Z;
  HOTH_BASE_CMD_HOTH_PRV_CMD_HOTH_SECURITY_V2 : Z;
}.

Definition sizeof_uint32_t : Z := 4.

(** ** Data *)

(** [libhoth_security_version]: the code distinguishes
    [LIBHOTH_SECURITY_V2] from everything else ([default:]). *)
Inductive libhoth_security_version :=
| LIBHOTH_SECURITY_V2
| LIBHOTH_SECURITY_other (enumerator : Z).

(** A [struct libhoth_device *] that is not NULL. *)
Inductive libhoth_device := Device (id : nat).

(** What the [data] pointer of a [struct security_v2_param] points at. *)
Inductive object :=
| U32 (v : Z)                (* a uint32_t local *)
| Bytes (bs : list byte)     (* a struct of raw bytes *)
| Dest (name : string).      (* a local the dispatcher is to fill *)

(** [struct security_v2_param { void* data; uint16_t size; }] *)
Record security_v2_param := {
  param_data : object;
  param_size : Z;
}.

(** [struct security_v2_serialized_param { uint32_t size; uint8_t value[]; }]:
    a field inside the response buffer.  [sp_value] is the memory that
    starts at [value]; the field itself is its first [sp_size] bytes. *)
Record security_v2_serialized_param := {
  sp_size : Z;
  sp_value : list byte;
}.

(** [struct token_set_info], with the members the test initialises.  The
    header that declares it is not among the sources, so the way a record
    is laid out in memory is left open: the theorems take it as a function
    [token_set_info -> list byte]. *)
Record token_set_info := {
  category : Z;
  num_tokens : Z;
  is_frozen : Z;
  reserved_0 : list byte;
}.

(** The locals [tokens_param], [boot_nonce_param] and [sig_param], whose
    addresses make up [response_params] of the serialized dispatcher. *)
Inductive handle := tokens_param | boot_nonce_param | sig_param.

(** The call-site arguments of both dispatchers, apart from the device and
    the response parameters. *)
Record exec_args := {
  major : Z;
  minor : Z;
  base_command : Z;
  request_capacity : Z;      (* SECURITY_V2_BUFFER_PARAM(request_storage_hdr) *)
  request_params : list security_v2_param;
  response_capacity : Z;     (* SECURITY_V2_BUFFER_PARAM(response_storage_hdr) *)
}.

(** The [FILE*] locals of the three functions. *)
Inductive file_var :=
| token_output_ptr | signature_output_ptr | boot_nonce_output_ptr
| num_ids_ptr | boot_nonce_ptr | signature_ptr
| token_set_info_file_ptr.

(** A [FILE*]: NULL or the index of a stream in the stream table. *)
Definition FILEp := option nat.

(** The diagnostics the functions print (stdout, or stderr for
    [Msg_not_multiple_of_token_size]). *)
Inductive message :=
| Msg_rand_bytes_failed
| Msg_fopen_failed (path : string)
| Msg_command_status (hoth_status : Z)
| Msg_failed_to_parse_tokens
| Msg_token_buffer_too_large (size : Z)
| Msg_not_multiple_of_token_size (size : Z)
| Msg_v3_not_supported.

(** ** The environment *)

Record env := {
  htool_libhoth_device : option libhoth_device;
  (* [None]: the lookup returned non-zero *)
  htool_get_param_string : string -> option string;
  htool_get_param_u32 : string -> option Z;
  (* whether [fopen(path, "wb")] yields a stream *)
  fopen_wb : string -> bool;
  (* return code and the bytes left in the buffer *)
  RAND_bytes : Z -> Z * list byte;
  (* the byte an automatic object holds at an offset before anything has
     been stored there, per local *)
  uninitialised : string -> nat -> byte;
  htool_get_security_version : libhoth_device -> libhoth_security_version;
  (* status and, per response parameter in order, the bytes stored in it *)
  htool_exec_security_v2_cmd :
    libhoth_device -> exec_args -> list security_v2_param -> Z * list (list byte);
  (* status and, per response handle in order, the pointer stored in it
     ([None]: the handle was left as it was) *)
  htool_exec_security_v2_serialized_cmd :
    libhoth_device -> exec_args -> list handle ->
    Z * list (option security_v2_serialized_param);
}.

(** ** The world: files, streams and the log of calls *)

Inductive event :=
| Ev_libhoth_device (r : option libhoth_device)
| Ev_get_param_string (name : string) (r : option string)
| Ev_get_param_u32 (name : string) (r : option Z)
| Ev_fopen (path : string) (r : FILEp)
| Ev_RAND_bytes (num : Z) (r : Z * list byte)
| Ev_get_security_version (r : libhoth_security_version)
| Ev_exec_security_v2_cmd
    (a : exec_args) (response_params : list security_v2_param)
    (r : Z * list (list byte))
| Ev_exec_security_v2_serialized_cmd
    (a : exec_args) (response_params : list handle)
    (r : Z * list (option security_v2_serialized_param))
| Ev_fwrite (stream : nat) (bs : list byte)
| Ev_fclose (stream : nat)
| Ev_print (m : message).

(** A stdio stream opened with mode "wb": the bytes written since it was
    opened sit in [f_buf] until the stream is closed. *)
Record FILE := {
  f_path : string;
  f_buf : list byte;
  f_open : bool;
}.

Record world := {
  fs : gmap string (list byte);
  streams : list FILE;
  trace : list event;
}.

Definition initial_world (files : gmap string (list byte)) : world :=
  {| fs := files; streams := []; trace := [] |}.

(** Opening with "wb" creates the file or truncates it to length zero. *)
Definition fs_truncate (path : string) (m : gmap string (list byte)) :
  gmap string (list byte) := <[path := []]> m.

(** Flushing a stream that was opened at offset 0 overwrites the start of
    the file with the buffered bytes. *)
Definition overlay (old new : list byte) : list byte :=
  new ++ drop (length new) old.

Definition fs_flush (path : string) (buf : list byte)
  (m : gmap string (list byte)) : gmap string (list byte) :=
  <[path := overlay (default [] (m !! path)) buf]> m.

Global Arguments fs_truncate : simpl never.
Global Arguments fs_flush : simpl never.

(** ** Control *)

(** The points at which C gives the code no defined result. *)
Inductive fault :=
| Indeterminate_FILE (v : file_var)   (* a goto skipped its initialisation *)
| Null_dereference (h : handle)
| Read_out_of_bounds
| Invalid_stream
| No_return.

Inductive ctl (A : Type) :=
| Next (a : A)
| Return_ (rv : Z)           (* [return rv;] *)
| Goto_cleanup               (* [goto cleanup;] *)
| Undefined (u : fault).
Global Arguments Next {A} a.
Global Arguments Return_ {A} rv.
Global Arguments Goto_cleanup {A}.
Global Arguments Undefined {A} u.

(** The locals that are live across [goto cleanup]: [status] and the
    [FILE*] variables.  A [FILE*] whose declaration has not been reached is
    [None] (indeterminate). *)
Record frame := {
  status : Z;
  file_vars : file_var -> option FILEp;
}.

Global Instance file_var_eq_dec : EqDecision file_var.
Proof. solve_decision. Defined.

Global Instance handle_eq_dec : EqDecision handle.
Proof. solve_decision. Defined.

Definition M (A : Type) : Type := frame -> world -> ctl A * frame * world.

Definition ret {A} (a : A) : M A := fun f w => (Next a, f, w).

Definition bind {A B} (m : M A) (k : A -> M B) : M B :=
  fun f w =>
    match m f w with
    | (Next a, f', w') => k a f' w'
    | (Return_ rv, f', w') => (Return_ rv, f', w')
    | (Goto_cleanup, f', w') => (Goto_cleanup, f', w')
    | (Undefined u, f', w') => (Undefined u, f', w')
    end.

Global Instance M_ret : MRet M := @ret.
Global Instance M_bind : MBind M := fun A B k m => bind m k.

Definition return_ {A} (rv : Z) : M A := fun f w => (Return_ rv, f, w).
Definition goto_cleanup {A} : M A := fun f w => (Goto_cleanup, f, w).
Definition undefined {A} (u : fault) : M A :=
  fun f w => (Undefined u, f, w).

Definition when (c : bool) (m : M unit) : M unit := if c then m else ret tt.

Definition emit (ev : event) : M unit :=
  fun f w =>
    (Next tt, f,
     {| fs := fs w; streams := streams w; trace := trace w ++ [ev] |}).

(** *** Locals *)

Definition set_status (z : Z) : M unit :=
  fun f w => (Next tt, {| status := z; file_vars := file_vars f |}, w).

Definition get_status : M Z := fun f w => (Next (status f), f, w).

(** [v = p;] and the initialisation in [FILE* v = NULL;] *)
Definition assign (v : file_var) (p : FILEp) : M unit :=
  fun f w =>
    (Next tt,
     {| status := status f;
        file_vars := fun v' => if decide (v' = v) then Some p else file_vars f v' |},
     w).

(** Reading [v]. *)
Definition read (v : file_var) : M FILEp :=
  fun f w =>
    match file_vars f v with
    | Some p => (Next p, f, w)
    | None => (Undefined (Indeterminate_FILE v), f, w)
    end.

Definition entry_frame : frame :=
  {| status := 0; file_vars := fun _ => None |}.

(** ** Running a function *)

Inductive outcome :=
| Returned (rv : Z)
| Faulted (u : fault).

(** A body followed by the [cleanup:] label: the label is reached by
    falling through or by [goto cleanup]. *)
Definition with_cleanup (body cleanup : M unit) : M unit :=
  fun f w =>
    match body f w with
    | (Next _, f', w') | (Goto_cleanup, f', w') => cleanup f' w'
    | r => r
    end.

Definition run (fn : M unit) (w : world) : outcome * world :=
  match fn entry_frame w with
  | (Return_ rv, _, w') => (Returned rv, w')
  | (Undefined u, _, w') => (Faulted u, w')
  | (Next _, _, w') | (Goto_cleanup, _, w') => (Faulted No_return, w')
  end.

(** ** Memory and stdio *)

(** The [n] bytes at the start of [obj]. *)
Definition mem_read (obj : list byte) (n : Z) : option (list byte) :=
  if bool_decide (0 <= n <= Z.of_nat (length obj))
  then Some (take (Z.to_nat n) obj)
  else None.

(** [p->...] for a response handle. *)
Definition deref (h : handle) (p : option security_v2_serialized_param) :
  M security_v2_serialized_param :=
  match p with
  | Some sp => ret sp
  | None => undefined (Null_dereference h)
  end.

Definition is_NULL {A} (p : option A) : bool :=
  match p with None => true | Some _ => false end.

Definition print (m : message) : M unit := emit (Ev_print m).

(** Handing bytes to a stream. *)
Definition fwrite_bytes (bs : list byte) (stream : FILEp) : M unit :=
  fun f w =>
    match stream with
    | None => (Undefined Invalid_stream, f, w)
    | Some k =>
      match streams w !! k with
      | Some s =>
        if f_open s then
          (Next tt, f,
           {| fs := fs w;
              streams := <[k := {| f_path := f_path s;
                                   f_buf := f_buf s ++ bs;
                                   f_open := true |}]> (streams w);
              trace := trace w ++ [Ev_fwrite k bs] |})
        else (Undefined Invalid_stream, f, w)
      | None => (Undefined Invalid_stream, f, w)
      end
    end.

(** [fwrite(obj, size, sizeof(uint8_t), stream)] for memory reached
    through a pointer. *)
Definition fwrite (obj : list byte) (size : Z) (stream : FILEp) : M unit :=
  fun f w =>
    match mem_read obj size with
    | None => (Undefined Read_out_of_bounds, f, w)
    | Some bs => fwrite_bytes bs stream f w
    end.

(** [fclose(stream)] for a stream that is not NULL. *)
Definition fclose (k : nat) : M unit :=
  fun f w =>
    match streams w !! k with
    | Some s =>
      if f_open s then
        (Next tt, f,
         {| fs := fs_flush (f_path s) (f_buf s) (fs w);
            streams := <[k := {| f_path := f_path s;
                                 f_buf := [];
                                 f_open := false |}]> (streams w);
            trace := trace w ++ [Ev_fclose k] |})
      else (Undefined Invalid_stream, f, w)
    | None => (Undefined Invalid_stream, f, w)
    end.

(** [if (v) { fclose(v); }] *)
Definition fclose_if_set (v : file_var) : M unit :=
  p ← read v;
  match p with
  | Some k => fclose k
  | None => ret tt
  end.

(** What the response handles hold after the serialized dispatcher has
    run: the i-th result goes to the i-th handle. *)
Fixpoint store_handles (hs : list handle)
  (out : list (option security_v2_serialized_param))
  (cur : handle -> option security_v2_serialized_param) :
  handle -> option security_v2_serialized_param :=
  match hs, out with
  | h :: hs', o :: out' =>
    store_handles hs' out'
      (match o with
       | Some p => fun h' => if decide (h' = h) then Some p else cur h'
       | None => cur
       end)
  | _, _ => cur
  end.

(** What the destination locals hold after the fixed dispatcher has run:
    the i-th result goes to the local the i-th parameter points at. *)
Fixpoint store_slots (ps : list security_v2_param) (out : list (list byte))
  (cur : string -> option (list byte)) : string -> option (list byte) :=
  match ps, out with
  | p :: ps', o :: out' =>
    store_slots ps' out'
      (match param_data p with
       | Dest name => fun n => if decide (n = name) then Some o else cur n
       | _ => cur
       end)
  | _, _ => cur
  end.

(** The [size] bytes of a local: at each offset what has been stored
    there, and what the local held before where nothing has been. *)
Definition object_bytes (before : nat -> byte) (stored : option (list byte))
  (size : Z) : list byte :=
  (fun i => default (before i) (default [] stored !! i))
    <$> seq 0 (Z.to_nat size).

(** ** The functions of htool_security_tokens.c *)

Section Operations.

Variable K : constants.
Variable e : env.

(** *** Calls into the environment *)

Definition call_htool_libhoth_device : M (option libhoth_device) :=
  let r := htool_libhoth_device e in
  emit (Ev_libhoth_device r);; ret r.

Definition call_htool_get_param_string (name : string) : M (option string) :=
  let r := htool_get_param_string e name in
  emit (Ev_get_param_string name r);; ret r.

Definition call_htool_get_param_u32 (name : string) : M (option Z) :=
  let r := htool_get_param_u32 e name in
  emit (Ev_get_param_u32 name r);; ret r.

Definition call_RAND_bytes (num : Z) : M (Z * list byte) :=
  let r := RAND_bytes e num in
  emit (Ev_RAND_bytes num r);; ret r.

Definition call_htool_get_security_version (dev : libhoth_device) :
  M libhoth_security_version :=
  let r := htool_get_security_version e dev in
  emit (Ev_get_security_version r);; ret r.

Definition call_htool_exec_security_v2_cmd (dev : libhoth_device)
  (a : exec_args) (response_params : list security_v2_param) :
  M (Z * list (list byte)) :=
  let r := htool_exec_security_v2_cmd e dev a response_params in
  emit (Ev_exec_security_v2_cmd a response_params r);; ret r.

Definition call_htool_exec_security_v2_serialized_cmd (dev : libhoth_device)
  (a : exec_args) (response_params : list handle) :
  M (Z * list (option security_v2_serialized_param)) :=
  let r := htool_exec_security_v2_serialized_cmd e dev a response_params in
  emit (Ev_exec_security_v2_serialized_cmd a response_params r);; ret r.

(** The memory of a destination local of [size] bytes, given what the
    dispatcher stored into the destinations. *)
Definition read_local (locals : string -> option (list byte)) (name : string)
  (size : Z) : M (list byte) :=
  ret (object_bytes (uninitialised e name) (locals name) size).

(** [fopen(path, "wb")] *)
Definition fopen (path : string) : M FILEp :=
  fun f w =>
    if fopen_wb e path then
      let k := length (streams w) in
      (Next (Some k), f,
       {| fs := fs_truncate path (fs w);
          streams := streams w ++ [{| f_path := path; f_buf := []; f_open := true |}];
          trace := trace w ++ [Ev_fopen path (Some k)] |})
    else
      (Next None, f,
       {| fs := fs w; streams := streams w;
          trace := trace w ++ [Ev_fopen path None] |}).

(** *** get_rand_challenge_nonce

    Returns the function's result together with the contents of
    [*challenge]; [struct nonce] is taken to consist of its [nonce] array. *)
Definition get_rand_challenge_nonce : M (Z * list byte) :=
  r ← call_RAND_bytes (sizeof_nonce K);
  if negb (fst r =? 1) then
    print Msg_rand_bytes_failed;;
    ret (1, snd r)
  else
    ret (0, snd r).

(** *** htool_get_tokens_in_set *)

Definition htool_get_tokens_in_set_body : M unit :=
  set_status (-1);;
  dev ← call_htool_libhoth_device;
  match dev with
  | None => return_ (-1)
  | Some dev =>
  token_output_file ← call_htool_get_param_string "token_output";
  match token_output_file with
  | None => return_ (-1)
  | Some token_output_file =>
  assign token_output_ptr None;;
  p ← fopen token_output_file;
  assign token_output_ptr p;;
  when (is_NULL p) (print (Msg_fopen_failed token_output_file);; goto_cleanup);;
  signature_output_file ← call_htool_get_param_string "signature_output";
  match signature_output_file with
  | None => return_ (-1)
  | Some signature_output_file =>
  assign signature_output_ptr None;;
  p ← fopen signature_output_file;
  assign signature_output_ptr p;;
  when (is_NULL p) (print (Msg_fopen_failed signature_output_file);; goto_cleanup);;
  boot_nonce_output_file ← call_htool_get_param_string "boot_nonce_output";
  match boot_nonce_output_file with
  | None => return_ (-1)
  | Some boot_nonce_output_file =>
  assign boot_nonce_output_ptr None;;
  p ← fopen boot_nonce_output_file;
  assign boot_nonce_output_ptr p;;
  when (is_NULL p) (print (Msg_fopen_failed boot_nonce_output_file);; goto_cleanup);;
  '(rc, challenge) ← get_rand_challenge_nonce;
  when (negb (rc =? 0)) goto_cleanup;;
  set_idx ← call_htool_get_param_u32 "set_index";
  match set_idx with
  | None => goto_cleanup
  | Some set_idx =>
  sv ← call_htool_get_security_version dev;
  match sv with
  | LIBHOTH_SECURITY_V2 =>
    let request_params :=
      [ {| param_data := U32 set_idx; param_size := sizeof_uint32_t |};
        {| param_data := Bytes challenge; param_size := sizeof_nonce K |} ] in
    let response_params := [tokens_param; boot_nonce_param; sig_param] in
    '(hoth_status, out) ←
      call_htool_exec_security_v2_serialized_cmd dev
        {| major := HOTH_PRV_CMD_HOTH_SECURITY_V2_TOKENS_MAJOR_COMMAND K;
           minor := HOTH_PRV_CMD_HOTH_SECURITY_V2_GET_TOKENS_IN_SET_MINOR_COMMAND K;
           base_command := HOTH_BASE_CMD_HOTH_PRV_CMD_HOTH_SECURITY_V2 K;
           request_capacity :=
             HOTH_SECURITY_V2_REQUEST_SIZE K 2 + sizeof_uint32_t + sizeof_nonce K;
           request_params := request_params;
           response_capacity := MAX_TOKEN_RESPONSE_SIZE K |}
        response_params;
    let handles := store_handles response_params out (fun _ => None) in
    when (negb (hoth_status =? 0))
      (print (Msg_command_status hoth_status);;
       set_status hoth_status;;
       goto_cleanup);;
    when (is_NULL (handles tokens_param))
      (print Msg_failed_to_parse_tokens;; goto_cleanup);;
    tokens ← deref tokens_param (handles tokens_param);
    when (sp_size tokens >? MAX_TOKEN_RESPONSE_SIZE K)
      (print (Msg_token_buffer_too_large (sp_size tokens));; goto_cleanup);;
    when (negb (sp_size tokens `mod` TOKEN_BYTE_SIZE K =? 0))
      (print (Msg_not_multiple_of_token_size (sp_size tokens));; goto_cleanup);;
    stream ← read token_output_ptr;
    fwrite (sp_value tokens) (sp_size tokens) stream;;
    boot_nonce ← deref boot_nonce_param (handles boot_nonce_param);
    stream ← read boot_nonce_output_ptr;
    fwrite (sp_value boot_nonce) (sp_size boot_nonce) stream;;
    sig ← deref sig_param (handles sig_param);
    stream ← read signature_output_ptr;
    fwrite (sp_value sig) (sp_size sig) stream
  | _ =>
    print Msg_v3_not_supported;;
    return_ (-1)
  end;;
  set_status 0
  end end end end end.

Definition htool_get_tokens_in_set_cleanup : M unit :=
  fclose_if_set token_output_ptr;;
  fclose_if_set boot_nonce_output_ptr;;
  fclose_if_set signature_output_ptr;;
  s ← get_status;
  return_ s.

Definition htool_get_tokens_in_set : M unit :=
  with_cleanup htool_get_tokens_in_set_body htool_get_tokens_in_set_cleanup.

(** *** htool_get_token_set_count *)

Definition htool_get_token_set_count_body : M unit :=
  set_status (-1);;
  dev ← call_htool_libhoth_device;
  match dev with
  | None => return_ (-1)
  | Some dev =>
  num_ids_file ← call_htool_get_param_string "num_ids_output";
  match num_ids_file with
  | None => return_ (-1)
  | Some num_ids_file =>
  assign num_ids_ptr None;;
  p ← fopen num_ids_file;
  assign num_ids_ptr p;;
  when (is_NULL p) (print (Msg_fopen_failed num_ids_file);; goto_cleanup);;
  boot_nonce_file ← call_htool_get_param_string "boot_nonce_output";
  match boot_nonce_file with
  | None => return_ (-1)
  | Some boot_nonce_file =>
  assign boot_nonce_ptr None;;
  p ← fopen boot_nonce_file;
  assign boot_nonce_ptr p;;
  when (is_NULL p) (print (Msg_fopen_failed boot_nonce_file);; goto_cleanup);;
  signature_file ← call_htool_get_param_string "signature_output";
  match signature_file with
  | None => return_ (-1)
  | Some signature_file =>
  assign signature_ptr None;;
  p ← fopen signature_file;
  assign signature_ptr p;;
  when (is_NULL p) (print (Msg_fopen_failed signature_file);; goto_cleanup);;
  '(rc, challenge) ← get_rand_challenge_nonce;
  when (negb (rc =? 0)) goto_cleanup;;
  sv ← call_htool_get_security_version dev;
  match sv with
  | LIBHOTH_SECURITY_V2 =>
    let request_params :=
      [ {| param_data := Bytes challenge; param_size := sizeof_nonce K |} ] in
    let response_params :=
      [ {| param_data := Dest "num_ids"; param_size := sizeof_uint32_t |};
        {| param_data := Dest "boot_nonce"; param_size := sizeof_boot_nonce K |};
        {| param_data := Dest "signature"; param_size := sizeof_signature K |} ] in
    '(hoth_status, out) ←
      call_htool_exec_security_v2_cmd dev
        {| major := HOTH_PRV_CMD_HOTH_SECURITY_V2_TOKENS_MAJOR_COMMAND K;
           minor := HOTH_PRV_CMD_HOTH_SECURITY_V2_GET_TOKEN_SET_COUNT_MINOR_COMMAND K;
           base_command := HOTH_BASE_CMD_HOTH_PRV_CMD_HOTH_SECURITY_V2 K;
           request_capacity := HOTH_SECURITY_V2_REQUEST_SIZE K 1 + sizeof_nonce K;
           request_params := request_params;
           response_capacity :=
             HOTH_SECURITY_V2_RESPONSE_SIZE K 3 + sizeof_uint32_t
             + sizeof_boot_nonce K + sizeof_signature K |}
        response_params;
    let locals := store_slots response_params out (fun _ => None) in
    when (negb (hoth_status =? 0))
      (print (Msg_command_status hoth_status);;
       set_status hoth_status;;
       goto_cleanup);;
    num_ids ← read_local locals "num_ids" sizeof_uint32_t;
    stream ← read num_ids_ptr;
    fwrite_bytes num_ids stream;;
    boot_nonce ← read_local locals "boot_nonce" (sizeof_boot_nonce K);
    stream ← read boot_nonce_ptr;
    fwrite_bytes boot_nonce stream;;
    signature ← read_local locals "signature" (sizeof_signature K);
    stream ← read signature_ptr;
    fwrite_bytes signature stream
  | _ =>
    print Msg_v3_not_supported;;
    return_ (-1)
  end;;
  set_status 0
  end end end end.

Definition htool_get_token_set_count_cleanup : M unit :=
  fclose_if_set num_ids_ptr;;
  fclose_if_set boot_nonce_ptr;;
  fclose_if_set signature_ptr;;
  s ← get_status;
  return_ s.

Definition htool_get_token_set_count : M unit :=
  with_cleanup htool_get_token_set_count_body htool_get_token_set_count_cleanup.

(** *** htool_get_token_set_info *)

Definition htool_get_token_set_info_body : M unit :=
  set_status (-1);;
  dev ← call_htool_libhoth_device;
  match dev with
  | None => return_ (-1)
  | Some dev =>
  set_idx ← call_htool_get_param_u32 "set_index";
  match set_idx with
  | None => goto_cleanup
  | Some set_idx =>
  '(rc, challenge) ← get_rand_challenge_nonce;
  when (negb (rc =? 0)) goto_cleanup;;
  token_set_info_file ← call_htool_get_param_string "token_set_info";
  match token_set_info_file with
  | None => return_ (-1)
  | Some token_set_info_file =>
  assign token_set_info_file_ptr None;;
  p ← fopen token_set_info_file;
  assign token_set_info_file_ptr p;;
  when (is_NULL p) (print (Msg_fopen_failed token_set_info_file);; goto_cleanup);;
  sv ← call_htool_get_security_version dev;
  match sv with
  | LIBHOTH_SECURITY_V2 =>
    let request_params :=
      [ {| param_data := U32 set_idx; param_size := sizeof_uint32_t |};
        {| param_data := Bytes challenge; param_size := sizeof_nonce K |} ] in
    let response_params :=
      [ {| param_data := Dest "info"; param_size := sizeof_token_set_info K |};
        {| param_data := Dest "boot_nonce"; param_size := sizeof_boot_nonce K |};
        {| param_data := Dest "signature"; param_size := sizeof_signature K |} ] in
    '(hoth_status, out) ←
      call_htool_exec_security_v2_cmd dev
        {| major := HOTH_PRV_CMD_HOTH_SECURITY_V2_TOKENS_MAJOR_COMMAND K;
           minor := HOTH_PRV_CMD_HOTH_SECURITY_V2_GET_TOKEN_SET_INFO_MINOR_COMMAND K;
           base_command := HOTH_BASE_CMD_HOTH_PRV_CMD_HOTH_SECURITY_V2 K;
           request_capacity :=
             HOTH_SECURITY_V2_REQUEST_SIZE K 2 + sizeof_uint32_t + sizeof_nonce K;
           request_params := request_params;
           response_capacity :=
             HOTH_SECURITY_V2_RESPONSE_SIZE K 3 + sizeof_token_set_info K
             + sizeof_boot_nonce K + sizeof_signature K |}
        response_params;
    let locals := store_slots response_params out (fun _ => None) in
    when (negb (hoth_status =? 0))
      (print (Msg_command_status hoth_status);;
       set_status hoth_status;;
       goto_cleanup);;
    info ← read_local locals "info" (sizeof_token_set_info K);
    stream ← read token_set_info_file_ptr;
    fwrite_bytes info stream
  | _ =>
    print Msg_v3_not_supported;;
    return_ (-1)
  end;;
  set_status 0
  end end end.

Definition htool_get_token_set_info_cleanup : M unit :=
  fclose_if_set token_set_info_file_ptr;;
  s ← get_status;
  return_ s.

Definition htool_get_token_set_info : M unit :=
  with_cleanup htool_get_token_set_info_body htool_get_token_set_info_cleanup.

End Operations.

Global Arguments store_handles : simpl never.
Global Arguments store_slots : simpl never.
Global Arguments mem_read : simpl never.
Global Arguments object_bytes : simpl never.

(** The three commands, run on a file system with no stream open. *)
Inductive operation := GetTokensInSet | GetTokenSetCount | GetTokenSetInfo.

Definition code (K : constants) (e : env) (op : operation) : M unit :=
  match op with
  | GetTokensInSet => htool_get_tokens_in_set K e
  | GetTokenSetCount => htool_get_token_set_count K e
  | GetTokenSetInfo => htool_get_token_set_info K e
  end.

Definition run_operation (K : constants) (e : env) (op : operation)
  (files : gmap string (list byte)) : outcome * world :=
  run (code K e op) (initial_world files).

(** ** Reading the log *)

(** The [fwrite] calls: stream and bytes. *)
Definition fwrites (tr : list event) : list (nat * list byte) :=
  omap (fun ev => match ev with Ev_fwrite k bs => Some (k, bs) | _ => None end) tr.

(** The [fwrite] calls by the path their stream was opened on. *)
Definition sink_writes (w : world) : list (string * list byte) :=
  omap (fun '(k, bs) => s ← streams w !! k; Some (f_path s, bs))
       (fwrites (trace w)).

(** How a dispatcher call binds its response. *)
Inductive response_binding :=
| Serialized (handles : list handle)
| Fixed (slots : list security_v2_param).

(** The request/response exchanges with the device: arguments, response
    binding and returned status. *)
Definition dispatch_calls (tr : list event) :
  list (exec_args * response_binding * Z) :=
  omap (fun ev =>
          match ev with
          | Ev_exec_security_v2_cmd a ps r => Some (a, Fixed ps, r.1)
          | Ev_exec_security_v2_serialized_cmd a hs r => Some (a, Serialized hs, r.1)
          | _ => None
          end) tr.

Definition rand_calls (tr : list event) : list (Z * list byte) :=
  omap (fun ev => match ev with Ev_RAND_bytes _ r => Some r | _ => None end) tr.

Definition version_probes (tr : list event) : list libhoth_security_version :=
  omap (fun ev => match ev with Ev_get_security_version v => Some v | _ => None end) tr.

Definition fopens (tr : list event) : list (string * FILEp) :=
  omap (fun ev => match ev with Ev_fopen p r => Some (p, r) | _ => None end) tr.

Definition prints (tr : list event) : list message :=
  omap (fun ev => match ev with Ev_print m => Some m | _ => None end) tr.

(** Whether a call into the environment reported failure to the code. *)
Definition event_failed (ev : event) : bool :=
  match ev with
  | Ev_libhoth_device r => is_NULL r
  | Ev_get_param_string _ r => is_NULL r
  | Ev_get_param_u32 _ r => is_NULL r
  | Ev_fopen _ r => is_NULL r
  | Ev_RAND_bytes _ r => negb (r.1 =? 1)
  | Ev_get_security_version v =>
      match v with LIBHOTH_SECURITY_V2 => false | _ => true end
  | Ev_exec_security_v2_cmd _ _ r => negb (r.1 =? 0)
  | Ev_exec_security_v2_serialized_cmd _ _ r => negb (r.1 =? 0)
  | Ev_fwrite _ _ | Ev_fclose _ | Ev_print _ => false
  end.

(** What may follow a failed call: diagnostics and the closing of streams. *)
Definition winds_down (ev : event) : bool :=
  match ev with
  | Ev_fclose _ | Ev_print _ => true
  | _ => false
  end.

(** After a failed call nothing but winding down happens. *)
Fixpoint stops_at_first_failure (tr : list event) : Prop :=
  match tr with
  | [] => True
  | ev :: rest =>
    (event_failed ev = true -> forallb winds_down rest = true)
    /\ stops_at_first_failure rest
  end.

(** The field a serialized parameter describes. *)
Definition field (p : security_v2_serialized_param) : list byte :=
  take (Z.to_nat (sp_size p)) (sp_value p).

(** ** Call-site arguments *)

Definition response_handles : list handle :=
  [tokens_param; boot_nonce_param; sig_param].

Definition set_index_and_nonce (K : constants) (set_idx : Z)
  (challenge : list byte) : list security_v2_param :=
  [ {| param_data := U32 set_idx; param_size := sizeof_uint32_t |};
    {| param_data := Bytes challenge; param_size := sizeof_nonce K |} ].

Definition nonce_only (K : constants) (challenge : list byte) :
  list security_v2_param :=
  [ {| param_data := Bytes challenge; param_size := sizeof_nonce K |} ].

(** The argument record [htool_get_tokens_in_set] passes to the serialized
    dispatcher. *)
Definition tokens_in_set_request (K : constants) (set_idx : Z)
  (challenge : list byte) : exec_args :=
  {| major := HOTH_PRV_CMD_HOTH_SECURITY_V2_TOKENS_MAJOR_COMMAND K;
     minor := HOTH_PRV_CMD_HOTH_SECURITY_V2_GET_TOKENS_IN_SET_MINOR_COMMAND K;
     base_command := HOTH_BASE_CMD_HOTH_PRV_CMD_HOTH_SECURITY_V2 K;
     request_capacity :=
       HOTH_SECURITY_V2_REQUEST_SIZE K 2 + sizeof_uint32_t + sizeof_nonce K;
     request_params := set_index_and_nonce K set_idx challenge;
     response_capacity := MAX_TOKEN_RESPONSE_SIZE K |}.

(** The arguments [htool_get_token_set_info] passes to the fixed
    dispatcher. *)
Definition token_set_info_request (K : constants) (set_idx : Z)
  (challenge : list byte) : exec_args :=
  {| major := HOTH_PRV_CMD_HOTH_SECURITY_V2_TOKENS_MAJOR_COMMAND K;
     minor := HOTH_PRV_CMD_HOTH_SECURITY_V2_GET_TOKEN_SET_INFO_MINOR_COMMAND K;
     base_command := HOTH_BASE_CMD_HOTH_PRV_CMD_HOTH_SECURITY_V2 K;
     request_capacity :=
       HOTH_SECURITY_V2_REQUEST_SIZE K 2 + sizeof_uint32_t + sizeof_nonce K;
     request_params := set_index_and_nonce K set_idx challenge;
     response_capacity :=
       HOTH_SECURITY_V2_RESPONSE_SIZE K 3 + sizeof_token_set_info K
       + sizeof_boot_nonce K + sizeof_signature K |}.

Definition token_set_info_slots (K : constants) : list security_v2_param :=
  [ {| param_data := Dest "info"; param_size := sizeof_token_set_info K |};
    {| param_data := Dest "boot_nonce"; param_size := sizeof_boot_nonce K |};
    {| param_data := Dest "signature"; param_size := sizeof_signature K |} ].

(** The arguments [htool_get_token_set_count] passes to the fixed
    dispatcher. *)
Definition token_set_count_request (K : constants) (challenge : list byte) :
  exec_args :=
  {| major := HOTH_PRV_CMD_HOTH_SECURITY_V2_TOKENS_MAJOR_COMMAND K;
     minor := HOTH_PRV_CMD_HOTH_SECURITY_V2_GET_TOKEN_SET_COUNT_MINOR_COMMAND K;
     base_command := HOTH_BASE_CMD_HOTH_PRV_CMD_HOTH_SECURITY_V2 K;
     request_capacity := HOTH_SECURITY_V2_REQUEST_SIZE K 1 + sizeof_nonce K;
     request_params := nonce_only K challenge;
     response_capacity :=
       HOTH_SECURITY_V2_RESPONSE_SIZE K 3 + sizeof_uint32_t
       + sizeof_boot_nonce K + sizeof_signature K |}.

Definition token_set_count_slots (K : constants) : list security_v2_param :=
  [ {| param_data := Dest "num_ids"; param_size := sizeof_uint32_t |};
    {| param_data := Dest "boot_nonce"; param_size := sizeof_boot_nonce K |};
    {| param_data := Dest "signature"; param_size := sizeof_signature K |} ].

(** ** Invocations that reach the dispatcher *)

(** Everything before the dispatch of [htool_get_tokens_in_set] goes well:
    the device is there, the three paths resolve and open, the nonce is
    drawn, [set_index] resolves and the module speaks V2. *)
Definition tokens_in_set_dispatches (K : constants) (e : env)
  (dev : libhoth_device) (token_path signature_path boot_nonce_path : string)
  (challenge : list byte) (set_idx : Z) : Prop :=
  htool_libhoth_device e = Some dev /\
  htool_get_param_string e "token_output" = Some token_path /\
  fopen_wb e token_path = true /\
  htool_get_param_string e "signature_output" = Some signature_path /\
  fopen_wb e signature_path = true /\
  htool_get_param_string e "boot_nonce_output" = Some boot_nonce_path /\
  fopen_wb e boot_nonce_path = true /\
  RAND_bytes e (sizeof_nonce K) = (1, challenge) /\
  htool_get_param_u32 e "set_index" = Some set_idx /\
  htool_get_security_version e dev = LIBHOTH_SECURITY_V2.

Definition token_set_info_dispatches (K : constants) (e : env)
  (dev : libhoth_device) (info_path : string)
  (challenge : list byte) (set_idx : Z) : Prop :=
  htool_libhoth_device e = Some dev /\
  htool_get_param_u32 e "set_index" = Some set_idx /\
  RAND_bytes e (sizeof_nonce K) = (1, challenge) /\
  htool_get_param_string e "token_set_info" = Some info_path /\
  fopen_wb e info_path = true /\
  htool_get_security_version e dev = LIBHOTH_SECURITY_V2.

Definition token_set_count_dispatches (K : constants) (e : env)
  (dev : libhoth_device) (num_ids_path boot_nonce_path signature_path : string)
  (challenge : list byte) : Prop :=
  htool_libhoth_device e = Some dev /\
  htool_get_param_string e "num_ids_output" = Some num_ids_path /\
  fopen_wb e num_ids_path = true /\
  htool_get_param_string e "boot_nonce_output" = Some boot_nonce_path /\
  fopen_wb e boot_nonce_path = true /\
  htool_get_param_string e "signature_output" = Some signature_path /\
  fopen_wb e signature_path = true /\
  RAND_bytes e (sizeof_nonce K) = (1, challenge) /\
  htool_get_security_version e dev = LIBHOTH_SECURITY_V2.

(** ** Invocations used as examples

    They follow htool_security_tokens_test.cc: [set_index] is 5, the
    challenge is filled with 0xAB, the boot nonce with 0xBB and the signature
    with 0xCC.  The struct sizes are small stand-ins; no theorem depends on
    them. *)
Module Fixture.

Definition K : constants :=
  {| TOKEN_BYTE_SIZE := 4;
     MAX_TOKEN_RESPONSE_SIZE := 64;
     sizeof_nonce := 4;
     sizeof_boot_nonce := 4;
     sizeof_signature := 8;
     sizeof_token_set_info := 4;
     HOTH_SECURITY_V2_REQUEST_SIZE := fun n => 4 + 2 * n;
     HOTH_SECURITY_V2_RESPONSE_SIZE := fun n => 4 + 2 * n;
     HOTH_PRV_CMD_HOTH_SECURITY_V2_TOKENS_MAJOR_COMMAND := 4;
     HOTH_PRV_CMD_HOTH_SECURITY_V2_GET_TOKENS_IN_SET_MINOR_COMMAND := 2;
     HOTH_PRV_CMD_HOTH_SECURITY_V2_GET_TOKEN_SET_COUNT_MINOR_COMMAND := 0;
     HOTH_PRV_CMD_HOTH_SECURITY_V2_GET_TOKEN_SET_INFO_MINOR_COMMAND := 1;
     HOTH_BASE_CMD_HOTH_PRV_CMD_HOTH_SECURITY_V2 := 3 |}.

Definition dev : libhoth_device := Device 0.

Definition challenge : list byte := [Byte.xab; Byte.xab; Byte.xab; Byte.xab].
Definition boot_nonce : list byte := [Byte.xbb; Byte.xbb; Byte.xbb; Byte.xbb].
Definition signature : list byte :=
  [Byte.xcc; Byte.xcc; Byte.xcc; Byte.xcc; Byte.xcc; Byte.xcc; Byte.xcc; Byte.xcc].

(** Three tokens, bytes 0, 1, 2, ... *)
Definition tokens : list byte :=
  [Byte.x00; Byte.x01; Byte.x02; Byte.x03; Byte.x04; Byte.x05;
   Byte.x06; Byte.x07; Byte.x08; Byte.x09; Byte.x0a; Byte.x0b].

Definition num_ids : list byte := [Byte.x0a; Byte.x00; Byte.x00; Byte.x00].

Definition param (bs : list byte) : security_v2_serialized_param :=
  {| sp_size := Z.of_nat (length bs); sp_value := bs |}.

(** What the stack holds where nothing has been stored: 0xEE. *)
Definition stale : string -> nat -> byte := fun _ _ => Byte.xee.

(** An environment in which the device is present, every parameter
    resolves ([name] to the path [name.bin]) and [set_index] is 5. *)
Definition mock (openable : string -> bool) (rand : Z * list byte)
  (version : libhoth_security_version)
  (fixed : Z * list (list byte))
  (serialized : Z * list (option security_v2_serialized_param)) : env :=
  {| htool_libhoth_device := Some dev;
     htool_get_param_string := fun name => Some (name +:+ ".bin");
     htool_get_param_u32 := fun _ => Some 5;
     fopen_wb := openable;
     RAND_bytes := fun _ => rand;
     uninitialised := stale;
     htool_get_security_version := fun _ => version;
     htool_exec_security_v2_cmd := fun _ _ _ => fixed;
     htool_exec_security_v2_serialized_cmd := fun _ _ _ => serialized |}.

Definition all_open : string -> bool := fun _ => true.

(** The same, with the module speaking V2 and the nonce drawn. *)
Definition v2 (fixed : Z * list (list byte))
  (serialized : Z * list (option security_v2_serialized_param)) : env :=
  mock all_open (1, challenge) LIBHOTH_SECURITY_V2 fixed serialized.

Definition no_fixed : Z * list (list byte) := (-1, []).
Definition no_serialized : Z * list (option security_v2_serialized_param) :=
  (-1, []).

(** GetTokensInSetSuccess. *)
Definition tokens_in_set_success : env :=
  v2 no_fixed (0, [Some (param tokens); Some (param boot_nonce); Some (param signature)]).

(** A tokens blob of 5 bytes, one more than a token. *)
Definition tokens_in_set_ragged : env :=
  v2 no_fixed
     (0, [Some (param (take 5 tokens)); Some (param boot_nonce); Some (param signature)]).

(** A tokens handle that reports 68 bytes, 4 more than the response buffer
    holds. *)
Definition tokens_in_set_oversized : env :=
  v2 no_fixed
     (0, [Some {| sp_size := 68; sp_value := tokens |};
          Some (param boot_nonce); Some (param signature)]).

(** The dispatcher reports success and fills the tokens handle only. *)
Definition tokens_in_set_tokens_only : env :=
  v2 no_fixed (0, [Some (param tokens)]).

(** GetTokenSetCountSuccess. *)
Definition token_set_count_success : env :=
  v2 (0, [num_ids; boot_nonce; signature]) no_serialized.

(** The device rejects the command with a positive status. *)
Definition command_rejected : env := v2 (5, []) (5, []).

(** GetTokenSetInfoSuccess: [{category = 1, num_tokens = 2, is_frozen = 1,
    reserved_0 = {0}}], with one byte per member as a stand-in layout. *)
Definition info_record : token_set_info :=
  {| category := 1; num_tokens := 2; is_frozen := 1; reserved_0 := [Byte.x00] |}.

Definition octet (z : Z) : byte := default Byte.x00 (Byte.of_N (Z.to_N z)).

Definition layout (r : token_set_info) : list byte :=
  [octet (category r); octet (num_tokens r); octet (is_frozen r)]
  ++ reserved_0 r.

Definition info : list byte := layout info_record.

Definition token_set_info_success : env :=
  v2 (0, [info; boot_nonce; signature]) no_serialized.

(** [RAND_bytes] fails. *)
Definition no_entropy : env :=
  mock all_open (0, []) LIBHOTH_SECURITY_V2
       (0, [info; boot_nonce; signature])
       (0, [Some (param tokens); Some (param boot_nonce); Some (param signature)]).

(** GetTokensInSetSuccess with every output parameter naming one file. *)
Definition one_file : env :=
  {| htool_libhoth_device := Some dev;
     htool_get_param_string := fun _ => Some "out.bin";
     htool_get_param_u32 := fun _ => Some 5;
     fopen_wb := all_open;
     RAND_bytes := fun _ => (1, challenge);
     uninitialised := stale;
     htool_get_security_version := fun _ => LIBHOTH_SECURITY_V2;
     htool_exec_security_v2_cmd := fun _ _ _ => no_fixed;
     htool_exec_security_v2_serialized_cmd := fun _ _ _ =>
       (0, [Some (param tokens); Some (param boot_nonce); Some (param signature)]) |}.

(** A module that speaks another protocol version. *)
Definition v3_module : env :=
  mock all_open (1, challenge) (LIBHOTH_SECURITY_other 1)
       (0, [info; boot_nonce; signature])
       (0, [Some (param tokens); Some (param boot_nonce); Some (param signature)]).

End Fixture.

(** ** Order of the steps *)

(** The number of sinks a command opens. *)
Definition sink_count (op : operation) : nat :=
  match op with
  | GetTokensInSet | GetTokenSetCount => 3
  | GetTokenSetInfo => 1
  end.

(** A log in which the version probe is the first thing done with the
    device. *)
Definition probes_version_first (tr : list event) : Prop :=
  forall dev rest,
    tr = Ev_libhoth_device (Some dev) :: rest ->
    exists v rest', rest = Ev_get_security_version v :: rest'.

(** ** The log of a successful run *)

(** The calls a run makes up to the dispatcher when nothing fails. *)
Definition tokens_in_set_prelude_trace (K : constants) (dev : libhoth_device)
  (token_path signature_path boot_nonce_path : string)
  (challenge : list byte) (set_idx : Z) : list event :=
  [ Ev_libhoth_device (Some dev);
    Ev_get_param_string "token_output" (Some token_path);
    Ev_fopen token_path (Some 0%nat);
    Ev_get_param_string "signature_output" (Some signature_path);
    Ev_fopen signature_path (Some 1%nat);
    Ev_get_param_string "boot_nonce_output" (Some boot_nonce_path);
    Ev_fopen boot_nonce_path (Some 2%nat);
    Ev_RAND_bytes (sizeof_nonce K) (1, challenge);
    Ev_get_param_u32 "set_index" (Some set_idx);
    Ev_get_security_version LIBHOTH_SECURITY_V2 ].

Definition token_set_count_prelude_trace (K : constants) (dev : libhoth_device)
  (num_ids_path boot_nonce_path signature_path : string)
  (challenge : list byte) : list event :=
  [ Ev_libhoth_device (Some dev);
    Ev_get_param_string "num_ids_output" (Some num_ids_path);
    Ev_fopen num_ids_path (Some 0%nat);
    Ev_get_param_string "boot_nonce_output" (Some boot_nonce_path);
    Ev_fopen boot_nonce_path (Some 1%nat);
    Ev_get_param_string "signature_output" (Some signature_path);
    Ev_fopen signature_path (Some 2%nat);
    Ev_RAND_bytes (sizeof_nonce K) (1, challenge);
    Ev_get_security_version LIBHOTH_SECURITY_V2 ].

Definition token_set_info_prelude_trace (K : constants) (dev : libhoth_device)
  (info_path : string) (challenge : list byte) (set_idx : Z) : list event :=
  [ Ev_libhoth_device (Some dev);
    Ev_get_param_u32 "set_index" (Some set_idx);
    Ev_RAND_bytes (sizeof_nonce K) (1, challenge);
    Ev_get_param_string "token_set_info" (Some info_path);
    Ev_fopen info_path (Some 0%nat);
    Ev_get_security_version LIBHOTH_SECURITY_V2 ].

Definition closed (path : string) : FILE :=
  {| f_path := path; f_buf := []; f_open := false |}.

(** The world a successful [htool_get_tokens_in_set] leaves behind. *)
Definition tokens_in_set_success_world (K : constants)
  (files : gmap string (list byte)) (dev : libhoth_device)
  (token_path signature_path boot_nonce_path : string)
  (challenge : list byte) (set_idx : Z)
  (out : list (option security_v2_serialized_param))
  (tokens boot_nonce sig : security_v2_serialized_param) : world :=
  {| fs :=
       fs_flush signature_path (field sig)
         (fs_flush boot_nonce_path (field boot_nonce)
            (fs_flush token_path (field tokens)
               (fs_truncate boot_nonce_path
                  (fs_truncate signature_path
                     (fs_truncate token_path files)))));
     streams := [closed token_path; closed signature_path; closed boot_nonce_path];
     trace :=
       tokens_in_set_prelude_trace K dev token_path signature_path
         boot_nonce_path challenge set_idx
       ++ [ Ev_exec_security_v2_serialized_cmd
              (tokens_in_set_request K set_idx challenge) response_handles (0, out);
            Ev_fwrite 0 (field tokens);
            Ev_fwrite 2 (field boot_nonce);
            Ev_fwrite 1 (field sig);
            Ev_fclose 0; Ev_fclose 2; Ev_fclose 1 ] |}.

(** The world a successful [htool_get_token_set_count] leaves behind. *)
Definition token_set_count_success_world (K : constants)
  (files : gmap string (list byte)) (dev : libhoth_device)
  (num_ids_path boot_nonce_path signature_path : string)
  (challenge : list byte) (out : list (list byte))
  (num_ids boot_nonce signature : list byte) : world :=
  {| fs :=
       fs_flush signature_path signature
         (fs_flush boot_nonce_path boot_nonce
            (fs_flush num_ids_path num_ids
               (fs_truncate signature_path
                  (fs_truncate boot_nonce_path
                     (fs_truncate num_ids_path files)))));
     streams := [closed num_ids_path; closed boot_nonce_path; closed signature_path];
     trace :=
       token_set_count_prelude_trace K dev num_ids_path boot_nonce_path
         signature_path challenge
       ++ [ Ev_exec_security_v2_cmd
              (token_set_count_request K challenge) (token_set_count_slots K) (0, out);
            Ev_fwrite 0 num_ids;
            Ev_fwrite 1 boot_nonce;
            Ev_fwrite 2 signature;
            Ev_fclose 0; Ev_fclose 1; Ev_fclose 2 ] |}.

(** The world a successful [htool_get_token_set_info] leaves behind. *)
Definition token_set_info_success_world (K : constants)
  (files : gmap string (list byte)) (dev : libhoth_device)
  (info_path : string) (challenge : list byte) (set_idx : Z)
  (out : list (list byte)) (info : list byte) : world :=
  {| fs := fs_flush info_path info (fs_truncate info_path files);
     streams := [closed info_path];
     trace :=
       token_set_info_prelude_trace K dev info_path challenge set_idx
       ++ [ Ev_exec_security_v2_cmd
              (token_set_info_request K set_idx challenge) (token_set_info_slots K) (0, out);
            Ev_fwrite 0 info;
            Ev_fclose 0 ] |}.

(** ** Further readings of the log *)

(** The paths a run opened successfully, in the order of the [fopen]
    calls. *)
Definition opened_paths (tr : list event) : list string :=
  omap (fun ev =>
          match ev with
          | Ev_fopen p (Some _) => Some p
          | _ => None
          end) tr.

(** The failed calls after which the code leaves by [return -1;] instead
    of [goto cleanup;]: no device, a missing output parameter, a version
    other than V2. *)
Definition leaves_by_return (ev : event) : bool :=
  match ev with
  | Ev_libhoth_device None => true
  | Ev_get_param_string _ None => true
  | Ev_get_security_version (LIBHOTH_SECURITY_other _) => true
  | _ => false
  end.

Definition is_open (s : FILE) : bool := f_open s.

(** ** Further invocations used as examples *)
Module Scenario.

(** [htool_libhoth_device()] returns NULL. *)
Definition no_device : env :=
  {| htool_libhoth_device := None;
     htool_get_param_string := fun name => Some (name +:+ ".bin");
     htool_get_param_u32 := fun _ => Some 5;
     fopen_wb := Fixture.all_open;
     RAND_bytes := fun _ => (1, Fixture.challenge);
     uninitialised := Fixture.stale;
     htool_get_security_version := fun _ => LIBHOTH_SECURITY_V2;
     htool_exec_security_v2_cmd := fun _ _ _ =>
       (0, [Fixture.info; Fixture.boot_nonce; Fixture.signature]);
     htool_exec_security_v2_serialized_cmd := fun _ _ _ =>
       (0, [Some (Fixture.param Fixture.tokens);
            Some (Fixture.param Fixture.boot_nonce);
            Some (Fixture.param Fixture.signature)]) |}.

(** Everything works, except that the parameter [missing] does not
    resolve and the path [locked] cannot be opened. *)
Definition except (missing locked : string) : env :=
  {| htool_libhoth_device := Some Fixture.dev;
     htool_get_param_string := fun name =>
       if String.eqb name missing then None else Some (name +:+ ".bin");
     htool_get_param_u32 := fun name =>
       if String.eqb name missing then None else Some 5;
     fopen_wb := fun path => negb (String.eqb path locked);
     RAND_bytes := fun _ => (1, Fixture.challenge);
     uninitialised := Fixture.stale;
     htool_get_security_version := fun _ => LIBHOTH_SECURITY_V2;
     htool_exec_security_v2_cmd := fun _ _ _ =>
       (0, [Fixture.num_ids; Fixture.boot_nonce; Fixture.signature]);
     htool_exec_security_v2_serialized_cmd := fun _ _ _ =>
       (0, [Some (Fixture.param Fixture.tokens);
            Some (Fixture.param Fixture.boot_nonce);
            Some (Fixture.param Fixture.signature)]) |}.

(** GetTokensInSetSuccess with the token and signature parameters naming
    one file. *)
Definition shared_sink : env :=
  {| htool_libhoth_device := Some Fixture.dev;
     htool_get_param_string := fun name =>
       if String.eqb name "boot_nonce_output" then Some "boot_nonce.bin"
       else Some "out.bin";
     htool_get_param_u32 := fun _ => Some 5;
     fopen_wb := Fixture.all_open;
     RAND_bytes := fun _ => (1, Fixture.challenge);
     uninitialised := Fixture.stale;
     htool_get_security_version := fun _ => LIBHOTH_SECURITY_V2;
     htool_exec_security_v2_cmd := fun _ _ _ => Fixture.no_fixed;
     htool_exec_security_v2_serialized_cmd := fun _ _ _ =>
       (0, [Some (Fixture.param Fixture.tokens);
            Some (Fixture.param Fixture.boot_nonce);
            Some (Fixture.param Fixture.signature)]) |}.

(** The dispatcher returns 0 and sets no handle. *)
Definition no_handles : env := Fixture.v2 Fixture.no_fixed (0, []).

End Scenario.

(** ** Diagnostics *)

(** What the checks on the tokens handle print, in the order the code
    makes them. *)
Definition validation_message (K : constants)
  (tokens : option security_v2_serialized_param) : option message :=
  match tokens with
  | None => Some Msg_failed_to_parse_tokens
  | Some t =>
    if sp_size t >? MAX_TOKEN_RESPONSE_SIZE K
    then Some (Msg_token_buffer_too_large (sp_size t))
    else if negb (sp_size t `mod` TOKEN_BYTE_SIZE K =? 0)
         then Some (Msg_not_multiple_of_token_size (sp_size t))
         else None
  end.

(** The diagnostic a call's result gives rise to, if any. *)
Definition reported (K : constants) (ev : event) : option message :=
  match ev with
  | Ev_fopen path None => Some (Msg_fopen_failed path)
  | Ev_RAND_bytes _ r =>
    if negb (r.1 =? 1) then Some Msg_rand_bytes_failed else None
  | Ev_get_security_version (LIBHOTH_SECURITY_other _) =>
    Some Msg_v3_not_supported
  | Ev_exec_security_v2_cmd _ _ r =>
    if negb (r.1 =? 0) then Some (Msg_command_status r.1) else None
  | Ev_exec_security_v2_serialized_cmd _ hs r =>
    if negb (r.1 =? 0) then Some (Msg_command_status r.1)
    else validation_message K (store_handles hs r.2 (fun _ => None) tokens_param)
  | _ => None
  end.

(** ** The test doubles of htool_security_tokens_test.cc

    The test file supplies the functions the commands call.  Each double
    forwards to a mock object held in a global pointer and returns -1 when
    that pointer is null; the device and the version come from two more
    globals.  The mock objects themselves (gmock classes of test_util.h)
    are parameters: what a mock method returns, and what it stores through
    its output argument, is up to the test. *)
Module Harness.

(** [HtoolInvocationMock]: result and the value stored through the output
    pointer, if any. *)
Record HtoolInvocationMock := {
  GetParamString : string -> Z * option string;
  GetParamU32 : string -> Z * option Z;
}.

Record HtoolSecurityV2Mock := {
  mock_exec_security_v2_cmd :
    libhoth_device -> exec_args -> list security_v2_param ->
    Z * list (list byte);
}.

Record HtoolSecurityV2SerializedMock := {
  mock_exec_security_v2_serialized_cmd :
    libhoth_device -> exec_args -> list handle ->
    Z * list (option security_v2_serialized_param);
}.

(** The globals of the test file. *)
Record globals := {
  g_htool_invocation_mock : option HtoolInvocationMock;
  g_htool_security_v2_mock : option HtoolSecurityV2Mock;
  g_htool_security_v2_serialized_mock : option HtoolSecurityV2SerializedMock;
  mock_dev : option libhoth_device;
}.

(** [static libhoth_security_version mock_security_version =
    LIBHOTH_SECURITY_V2;], assigned nowhere in the file. *)
Definition mock_security_version : libhoth_security_version :=
  LIBHOTH_SECURITY_V2.

Definition double_htool_get_param_string (g : globals) (name : string) :
  Z * option string :=
  match g_htool_invocation_mock g with
  | Some m => GetParamString m name
  | None => (-1, None)
  end.

Definition double_htool_get_param_u32 (g : globals) (name : string) :
  Z * option Z :=
  match g_htool_invocation_mock g with
  | Some m => GetParamU32 m name
  | None => (-1, None)
  end.

Definition double_htool_exec_security_v2_cmd (g : globals)
  (dev : libhoth_device) (a : exec_args)
  (response_params : list security_v2_param) : Z * list (list byte) :=
  match g_htool_security_v2_mock g with
  | Some m => mock_exec_security_v2_cmd m dev a response_params
  | None => (-1, [])
  end.

Definition double_htool_exec_security_v2_serialized_cmd (g : globals)
  (dev : libhoth_device) (a : exec_args) (response_params : list handle) :
  Z * list (option security_v2_serialized_param) :=
  match g_htool_security_v2_serialized_mock g with
  | Some m => mock_exec_security_v2_serialized_cmd m dev a response_params
  | None => (-1, [])
  end.

Definition double_htool_libhoth_device (g : globals) : option libhoth_device :=
  mock_dev g.

Definition double_htool_get_security_version (dev : libhoth_device) :
  libhoth_security_version := mock_security_version.

(** A lookup as the commands see it: a value only when the double
    returned 0. *)
Definition looked_up {A} (r : Z * option A) : option A :=
  if r.1 =? 0 then r.2 else None.

(** The environment of a command linked into the test binary; [fopen],
    [RAND_bytes] and the stack are the real ones. *)
Definition environment (g : globals) (openable : string -> bool)
  (rand : Z -> Z * list byte) (stack : string -> nat -> byte) : env :=
  {| htool_libhoth_device := double_htool_libhoth_device g;
     htool_get_param_string := fun name =>
       looked_up (double_htool_get_param_string g name);
     htool_get_param_u32 := fun name =>
       looked_up (double_htool_get_param_u32 g name);
     fopen_wb := openable;
     RAND_bytes := rand;
     uninitialised := stack;
     htool_get_security_version := double_htool_get_security_version;
     htool_exec_security_v2_cmd := double_htool_exec_security_v2_cmd g;
     htool_exec_security_v2_serialized_cmd :=
       double_htool_exec_security_v2_serialized_cmd g |}.

(** [SetUp] installs the device and the three mock objects of the
    fixture; [TearDown] clears all four globals. *)
Definition SetUp (hoth_dev_ : libhoth_device)
  (invocation_mock_ : HtoolInvocationMock)
  (security_v2_mock_ : HtoolSecurityV2Mock)
  (security_v2_serialized_mock_ : HtoolSecurityV2SerializedMock) : globals :=
  {| g_htool_invocation_mock := Some invocation_mock_;
     g_htool_security_v2_mock := Some security_v2_mock_;
     g_htool_security_v2_serialized_mock := Some security_v2_serialized_mock_;
     mock_dev := Some hoth_dev_ |}.

Definition TearDown : globals :=
  {| g_htool_invocation_mock := None;
     g_htool_security_v2_mock := None;
     g_htool_security_v2_serialized_mock := None;
     mock_dev := None |}.

(** Mock objects as the six tests program them: every string parameter
    resolves to a path under the temporary directory, [set_index] to 5,
    and both dispatchers give the same answer to every call. *)
Definition resolving : HtoolInvocationMock :=
  {| GetParamString := fun name => (0, Some (name +:+ ".bin"));
     GetParamU32 := fun _ => (0, Some 5) |}.

Definition answering (fixed : Z * list (list byte)) : HtoolSecurityV2Mock :=
  {| mock_exec_security_v2_cmd := fun _ _ _ => fixed |}.

Definition answering_serialized
  (serialized : Z * list (option security_v2_serialized_param)) :
  HtoolSecurityV2SerializedMock :=
  {| mock_exec_security_v2_serialized_cmd := fun _ _ _ => serialized |}.

End Harness.

(** ** Stages of a command *)

(** A call after which the command goes no further: one that reported
    failure, or a serialized dispatch that returned 0 with a tokens handle
    the checks reject (left NULL, larger than the response buffer, not a
    multiple of the token size). *)
Definition stage_failed (K : constants) (ev : event) : bool :=
  event_failed ev ||
  match ev with
  | Ev_exec_security_v2_serialized_cmd _ hs r =>
    (r.1 =? 0)
    && negb (is_NULL (validation_message K
                        (store_handles hs r.2 (fun _ => None) tokens_param)))
  | _ => false
  end.


(** The status of a run in which a stage failed: the dispatcher's own
    when it is not 0, and -1 otherwise. *)
Definition failure_status (tr : list event) : Z :=
  match dispatch_calls tr with
  | (_, _, st) :: _ => if st =? 0 then -1 else st
  | [] => -1
  end.

(** The calls a command has made when it asks for the version: everything
    before the dispatch, each with the answer that lets the command go
    on. *)
Definition steps_before_probe (K : constants) (op : operation)
  (dev : libhoth_device) (first_path second_path third_path : string)
  (challenge : list byte) (set_idx : Z) : list event :=
  match op with
  | GetTokensInSet =>
    [ Ev_libhoth_device (Some dev);
      Ev_get_param_string "token_output" (Some first_path);
      Ev_fopen first_path (Some 0%nat);
      Ev_get_param_string "signature_output" (Some second_path);
      Ev_fopen second_path (Some 1%nat);
      Ev_get_param_string "boot_nonce_output" (Some third_path);
      Ev_fopen third_path (Some 2%nat);
      Ev_RAND_bytes (sizeof_nonce K) (1, challenge);
      Ev_get_param_u32 "set_index" (Some set_idx) ]
  | GetTokenSetCount =>
    [ Ev_libhoth_device (Some dev);
      Ev_get_param_string "num_ids_output" (Some first_path);
      Ev_fopen first_path (Some 0%nat);
      Ev_get_param_string "boot_nonce_output" (Some second_path);
      Ev_fopen second_path (Some 1%nat);
      Ev_get_param_string "signature_output" (Some third_path);
      Ev_fopen third_path (Some 2%nat);
      Ev_RAND_bytes (sizeof_nonce K) (1, challenge) ]
  | GetTokenSetInfo =>
    [ Ev_libhoth_device (Some dev);
      Ev_get_param_u32 "set_index" (Some set_idx);
      Ev_RAND_bytes (sizeof_nonce K) (1, challenge);
      Ev_get_param_string "token_set_info" (Some first_path);
      Ev_fopen first_path (Some 0%nat) ]
  end.

(** ** Facts about the file store *)

Lemma lookup_fs_truncate (p q : string) (m : gmap string (list byte)) :
  fs_truncate p m !! q = if decide (p = q) then Some [] else m !! q.
Proof. unfold fs_truncate. apply lookup_insert. Qed.

Lemma lookup_fs_flush (p q : string) (buf : list byte) (m : gmap string (list byte)) :
  fs_flush p buf m !! q =
  if decide (p = q) then Some (overlay (default [] (m !! p)) buf) else m !! q.
Proof. unfold fs_flush. apply lookup_insert. Qed.

Lemma overlay_nil_r (old : list byte) : overlay old [] = old.
Proof. unfold overlay. simpl. by rewrite drop_0. Qed.

Lemma overlay_nil_l (new : list byte) : overlay [] new = new.
Proof. unfold overlay. by rewrite drop_nil, app_nil_r. Qed.

Lemma fs_flush_nil (p : string) (m : gmap string (list byte)) :
  is_Some (m !! p) -> fs_flush p [] m = m.
Proof.
  intros [c Hc]. unfold fs_flush. rewrite Hc. simpl.
  rewrite overlay_nil_r. by apply insert_id.
Qed.

Lemma mem_read_in_bounds (obj : list byte) (n : Z) :
  0 <= n <= Z.of_nat (length obj) -> mem_read obj n = Some (take (Z.to_nat n) obj).
Proof. intros H. unfold mem_read. by rewrite bool_decide_eq_true_2. Qed.

(** A local the dispatcher filled to its whole size holds what was
    stored. *)
Lemma object_bytes_filled (before : nat -> byte) (bs : list byte) (size : Z) :
  Z.of_nat (length bs) = size -> object_bytes before (Some bs) size = bs.
Proof.
  intros <-. unfold object_bytes. rewrite Nat2Z.id. simpl.
  apply list_eq. intros i. rewrite list_lookup_fmap.
  destruct (bs !! i) as [b|] eqn:Hb.
  - rewrite lookup_seq_lt by (by eapply lookup_lt_Some). simpl. by rewrite Hb.
  - rewrite lookup_seq_ge by (by apply lookup_ge_None). done.
Qed.

(** A local the dispatcher stored nothing into holds what it held
    before. *)
Lemma object_bytes_unfilled (before : nat -> byte) (size : Z) :
  object_bytes before None size = before <$> seq 0 (Z.to_nat size).
Proof.
  unfold object_bytes. apply list_fmap_ext. intros i x _. done.
Qed.

(** ** Symbolic execution *)

Ltac unfold_code :=
  cbv [run_operation code run with_cleanup
       htool_get_tokens_in_set htool_get_tokens_in_set_body
       htool_get_tokens_in_set_cleanup
       htool_get_token_set_count htool_get_token_set_count_body
       htool_get_token_set_count_cleanup
       htool_get_token_set_info htool_get_token_set_info_body
       htool_get_token_set_info_cleanup
       get_rand_challenge_nonce
       mbind M_bind bind mret M_ret ret emit set_status get_status assign read
       return_ goto_cleanup undefined when print
       call_htool_libhoth_device call_htool_get_param_string
       call_htool_get_param_u32 call_RAND_bytes call_htool_get_security_version
       call_htool_exec_security_v2_serialized_cmd call_htool_exec_security_v2_cmd
       fopen deref is_NULL fwrite fwrite_bytes fclose fclose_if_set read_local
       initial_world entry_frame status file_vars fs streams trace fst snd
       decide decide_rel file_var_eq_dec];
  cbn.

Ltac use_answer :=
  match goal with
  | H : ?l = _ |- context [?l] => rewrite H
  end.

Ltac run_code := repeat (unfold_code; try use_answer).

(** Closing a stream nothing was written to leaves the files as the
    [fopen] calls made them. *)
Ltac flush_empty :=
  repeat match goal with
         | |- context [fs_flush ?p [] (fs_truncate ?a ?m)] =>
           rewrite (fs_flush_nil p (fs_truncate a m))
             by (rewrite !lookup_fs_truncate; repeat case_decide;
                 first [congruence | by eexists])
         end.

Ltac unfold_requests H :=
  cbv [tokens_in_set_request token_set_info_request token_set_count_request
       set_index_and_nonce nonce_only response_handles
       token_set_info_slots token_set_count_slots] in H.

(** ** GetTokensInSet: validation of the returned tokens field *)

(** C1.  When the serialized dispatch of [htool_get_tokens_in_set] succeeds
    and the tokens field it returns has a size that is not a multiple of
    [TOKEN_BYTE_SIZE], the command returns the failure status -1 and the
    token sink receives no byte: nothing is passed to [fwrite] and the file
    is left empty.  Unless the size also exceeds the response buffer, the
    failure is reported as the token-size violation. *)
Theorem tokens_blob_not_multiple_of_token_size
  (K : constants) (e : env) (files : gmap string (list byte))
  (dev : libhoth_device) (token_path signature_path boot_nonce_path : string)
  (challenge : list byte) (set_idx : Z)
  (out : list (option security_v2_serialized_param))
  (tokens : security_v2_serialized_param) :
  tokens_in_set_dispatches K e dev token_path signature_path boot_nonce_path
    challenge set_idx ->
  htool_exec_security_v2_serialized_cmd e dev
    (tokens_in_set_request K set_idx challenge) response_handles = (0, out) ->
  store_handles response_handles out (fun _ => None) tokens_param = Some tokens ->
  0 < TOKEN_BYTE_SIZE K ->
  sp_size tokens `mod` TOKEN_BYTE_SIZE K <> 0 ->
  exists w,
    run_operation K e GetTokensInSet files = (Returned (-1), w) /\
    fwrites (trace w) = [] /\
    fs w !! token_path = Some [] /\
    (sp_size tokens <= MAX_TOKEN_RESPONSE_SIZE K ->
     prints (trace w) = [Msg_not_multiple_of_token_size (sp_size tokens)]).
Proof.
  intros (H1 & H2 & H3 & H4 & H5 & H6 & H7 & H8 & H9 & H10) Hx Ht _ Hm.
  unfold_requests Hx. unfold_requests Ht.
  apply Z.eqb_neq in Hm.
  destruct (sp_size tokens >? MAX_TOKEN_RESPONSE_SIZE K) eqn:Hcap;
    run_code; flush_empty;
    (eexists; split; [reflexivity|]); cbn; (split; [done|]);
    rewrite !lookup_fs_truncate; (split; [repeat case_decide; congruence|]).
  - apply Z.gtb_lt in Hcap. lia.
  - done.
Qed.

Lemma tokens_blob_not_multiple_of_token_size_witness :
  exists w,
    run_operation Fixture.K Fixture.tokens_in_set_ragged GetTokensInSet ∅
    = (Returned (-1), w) /\
    fwrites (trace w) = [] /\
    fs w !! "token_output.bin" = Some [] /\
    (5 <= 64 -> prints (trace w) = [Msg_not_multiple_of_token_size 5]).
Proof.
  apply (tokens_blob_not_multiple_of_token_size
           Fixture.K Fixture.tokens_in_set_ragged ∅ Fixture.dev
           "token_output.bin" "signature_output.bin" "boot_nonce_output.bin"
           Fixture.challenge 5
           [Some (Fixture.param (take 5 Fixture.tokens));
            Some (Fixture.param Fixture.boot_nonce);
            Some (Fixture.param Fixture.signature)]
           (Fixture.param (take 5 Fixture.tokens))).
  - repeat split; reflexivity.
  - reflexivity.
  - reflexivity.
  - reflexivity.
  - vm_compute. discriminate.
Defined.

(** C9.  When the serialized dispatch succeeds and the tokens handle
    reports a size larger than the response buffer
    ([MAX_TOKEN_RESPONSE_SIZE]), the command returns -1 and writes to no
    sink: the files are as the three [fopen] calls left them.  The capacity
    check comes first: the diagnostic is the capacity one whether or not the
    size is a multiple of [TOKEN_BYTE_SIZE]. *)
Theorem tokens_blob_larger_than_response_buffer
  (K : constants) (e : env) (files : gmap string (list byte))
  (dev : libhoth_device) (token_path signature_path boot_nonce_path : string)
  (challenge : list byte) (set_idx : Z)
  (out : list (option security_v2_serialized_param))
  (tokens : security_v2_serialized_param) :
  tokens_in_set_dispatches K e dev token_path signature_path boot_nonce_path
    challenge set_idx ->
  htool_exec_security_v2_serialized_cmd e dev
    (tokens_in_set_request K set_idx challenge) response_handles = (0, out) ->
  store_handles response_handles out (fun _ => None) tokens_param = Some tokens ->
  sp_size tokens > MAX_TOKEN_RESPONSE_SIZE K ->
  exists w,
    run_operation K e GetTokensInSet files = (Returned (-1), w) /\
    fwrites (trace w) = [] /\
    fs w = fs_truncate boot_nonce_path
             (fs_truncate signature_path (fs_truncate token_path files)) /\
    prints (trace w) = [Msg_token_buffer_too_large (sp_size tokens)].
Proof.
  intros (H1 & H2 & H3 & H4 & H5 & H6 & H7 & H8 & H9 & H10) Hx Ht Hcap.
  unfold_requests Hx. unfold_requests Ht.
  apply Z.gt_lt, Z.gtb_lt in Hcap.
  run_code. flush_empty.
  eexists; split; [reflexivity|]. by cbn.
Qed.

Lemma tokens_blob_larger_than_response_buffer_witness :
  exists w,
    run_operation Fixture.K Fixture.tokens_in_set_oversized GetTokensInSet ∅
    = (Returned (-1), w) /\
    fwrites (trace w) = [] /\
    fs w = fs_truncate "boot_nonce_output.bin"
             (fs_truncate "signature_output.bin"
                (fs_truncate "token_output.bin" ∅)) /\
    prints (trace w) = [Msg_token_buffer_too_large 68].
Proof.
  apply (tokens_blob_larger_than_response_buffer
           Fixture.K Fixture.tokens_in_set_oversized ∅ Fixture.dev
           "token_output.bin" "signature_output.bin" "boot_nonce_output.bin"
           Fixture.challenge 5
           [Some {| sp_size := 68; sp_value := Fixture.tokens |};
            Some (Fixture.param Fixture.boot_nonce);
            Some (Fixture.param Fixture.signature)]
           {| sp_size := 68; sp_value := Fixture.tokens |}).
  - repeat split; reflexivity.
  - reflexivity.
  - reflexivity.
  - reflexivity.
Defined.

(** ** GetTokensInSet: the three fields reach their sinks *)

(** C5.  Under V2, when the parameters resolve, the sinks open, the
    dispatch succeeds and the tokens field fits the response buffer with a
    size that is a multiple of [TOKEN_BYTE_SIZE], the command returns 0 and
    passes exactly three fields to [fwrite]: the tokens field to the token
    sink, the boot nonce to the boot-nonce sink and the signature to the
    signature sink, each byte for byte.  When the three sinks are three
    different files, each file ends up holding exactly its field. *)
Theorem tokens_in_set_success
  (K : constants) (e : env) (files : gmap string (list byte))
  (dev : libhoth_device) (token_path signature_path boot_nonce_path : string)
  (challenge : list byte) (set_idx : Z)
  (out : list (option security_v2_serialized_param))
  (tokens boot_nonce sig : security_v2_serialized_param) :
  tokens_in_set_dispatches K e dev token_path signature_path boot_nonce_path
    challenge set_idx ->
  htool_exec_security_v2_serialized_cmd e dev
    (tokens_in_set_request K set_idx challenge) response_handles = (0, out) ->
  store_handles response_handles out (fun _ => None) tokens_param = Some tokens ->
  store_handles response_handles out (fun _ => None) boot_nonce_param
    = Some boot_nonce ->
  store_handles response_handles out (fun _ => None) sig_param = Some sig ->
  0 <= sp_size tokens <= Z.of_nat (length (sp_value tokens)) ->
  0 <= sp_size boot_nonce <= Z.of_nat (length (sp_value boot_nonce)) ->
  0 <= sp_size sig <= Z.of_nat (length (sp_value sig)) ->
  sp_size tokens <= MAX_TOKEN_RESPONSE_SIZE K ->
  0 < TOKEN_BYTE_SIZE K ->
  sp_size tokens `mod` TOKEN_BYTE_SIZE K = 0 ->
  exists w,
    run_operation K e GetTokensInSet files = (Returned 0, w) /\
    sink_writes w = [ (token_path, field tokens);
                      (boot_nonce_path, field boot_nonce);
                      (signature_path, field sig) ] /\
    (token_path <> signature_path -> token_path <> boot_nonce_path ->
     signature_path <> boot_nonce_path ->
     fs w !! token_path = Some (field tokens) /\
     fs w !! boot_nonce_path = Some (field boot_nonce) /\
     fs w !! signature_path = Some (field sig)).
Proof.
  intros (H1 & H2 & H3 & H4 & H5 & H6 & H7 & H8 & H9 & H10)
         Hx Ht Hb Hs Rt Rb Rs Hcap _ Hm.
  unfold_requests Hx. unfold_requests Ht. unfold_requests Hb.
  unfold_requests Hs.
  apply mem_read_in_bounds in Rt, Rb, Rs.
  assert ((sp_size tokens >? MAX_TOKEN_RESPONSE_SIZE K) = false) as Hcap'
    by (rewrite Z.gtb_ltb; apply Z.ltb_ge; lia).
  apply Z.eqb_eq in Hm.
  run_code.
  eexists; split; [reflexivity|]. split; [done|].
  intros Hts Htb Hsb. cbn.
  rewrite !lookup_fs_flush, !lookup_fs_truncate.
  repeat case_decide; try congruence.
  by rewrite !overlay_nil_l.
Qed.

Lemma tokens_in_set_success_witness :
  exists w,
    run_operation Fixture.K Fixture.tokens_in_set_success GetTokensInSet ∅
    = (Returned 0, w) /\
    sink_writes w
    = [ ("token_output.bin", field (Fixture.param Fixture.tokens));
        ("boot_nonce_output.bin", field (Fixture.param Fixture.boot_nonce));
        ("signature_output.bin", field (Fixture.param Fixture.signature)) ] /\
    ("token_output.bin" <> "signature_output.bin" ->
     "token_output.bin" <> "boot_nonce_output.bin" ->
     "signature_output.bin" <> "boot_nonce_output.bin" ->
     fs w !! "token_output.bin" = Some (field (Fixture.param Fixture.tokens)) /\
     fs w !! "boot_nonce_output.bin"
     = Some (field (Fixture.param Fixture.boot_nonce)) /\
     fs w !! "signature_output.bin"
     = Some (field (Fixture.param Fixture.signature))).
Proof.
  apply (tokens_in_set_success
           Fixture.K Fixture.tokens_in_set_success ∅ Fixture.dev
           "token_output.bin" "signature_output.bin" "boot_nonce_output.bin"
           Fixture.challenge 5
           [Some (Fixture.param Fixture.tokens);
            Some (Fixture.param Fixture.boot_nonce);
            Some (Fixture.param Fixture.signature)]).
  - repeat split; reflexivity.
  - reflexivity.
  - reflexivity.
  - reflexivity.
  - reflexivity.
  - vm_compute. split; discriminate.
  - vm_compute. split; discriminate.
  - vm_compute. split; discriminate.
  - vm_compute. discriminate.
  - reflexivity.
  - reflexivity.
Defined.

(** The three sinks have to be three files for that: when the output
    parameters name one file, the three streams overwrite each other from
    offset 0 and the file ends up holding the signature followed by the tail
    of the tokens. *)
Example sinks_on_one_file_overwrite_each_other :
  exists w,
    run_operation Fixture.K Fixture.one_file GetTokensInSet ∅ = (Returned 0, w) /\
    fs w !! "out.bin" = Some (Fixture.signature ++ drop 8 Fixture.tokens).
Proof. eexists. split; vm_compute; reflexivity. Qed.

(** ** GetTokensInSet: absent response handles *)

(** X17.  The tokens handle is checked: when the dispatcher leaves it NULL
    the command reports a parse failure and writes nothing. *)
Lemma absent_tokens_handle_fails
  (K : constants) (e : env) (files : gmap string (list byte))
  (dev : libhoth_device) (token_path signature_path boot_nonce_path : string)
  (challenge : list byte) (set_idx : Z)
  (out : list (option security_v2_serialized_param)) :
  tokens_in_set_dispatches K e dev token_path signature_path boot_nonce_path
    challenge set_idx ->
  htool_exec_security_v2_serialized_cmd e dev
    (tokens_in_set_request K set_idx challenge) response_handles = (0, out) ->
  store_handles response_handles out (fun _ => None) tokens_param = None ->
  exists w,
    run_operation K e GetTokensInSet files = (Returned (-1), w) /\
    fwrites (trace w) = [] /\
    prints (trace w) = [Msg_failed_to_parse_tokens].
Proof.
  intros (H1 & H2 & H3 & H4 & H5 & H6 & H7 & H8 & H9 & H10) Hx Ht.
  unfold_requests Hx. unfold_requests Ht.
  run_code.
  eexists; split; [reflexivity|]. by cbn.
Qed.

(** X18.  The other two handles are not checked: with a valid tokens
    field and the boot-nonce handle left NULL, the tokens are handed to
    [fwrite] and the NULL handle is then read through. *)
Lemma absent_boot_nonce_handle_faults
  (K : constants) (e : env) (files : gmap string (list byte))
  (dev : libhoth_device) (token_path signature_path boot_nonce_path : string)
  (challenge : list byte) (set_idx : Z)
  (out : list (option security_v2_serialized_param))
  (tokens : security_v2_serialized_param) :
  tokens_in_set_dispatches K e dev token_path signature_path boot_nonce_path
    challenge set_idx ->
  htool_exec_security_v2_serialized_cmd e dev
    (tokens_in_set_request K set_idx challenge) response_handles = (0, out) ->
  store_handles response_handles out (fun _ => None) tokens_param = Some tokens ->
  store_handles response_handles out (fun _ => None) boot_nonce_param = None ->
  0 <= sp_size tokens <= Z.of_nat (length (sp_value tokens)) ->
  sp_size tokens <= MAX_TOKEN_RESPONSE_SIZE K ->
  sp_size tokens `mod` TOKEN_BYTE_SIZE K = 0 ->
  exists w,
    run_operation K e GetTokensInSet files
    = (Faulted (Null_dereference boot_nonce_param), w) /\
    fwrites (trace w) = [(0%nat, field tokens)].
Proof.
  intros (H1 & H2 & H3 & H4 & H5 & H6 & H7 & H8 & H9 & H10)
         Hx Ht Hb Rt Hcap Hm.
  unfold_requests Hx. unfold_requests Ht. unfold_requests Hb.
  apply mem_read_in_bounds in Rt.
  assert ((sp_size tokens >? MAX_TOKEN_RESPONSE_SIZE K) = false) as Hcap'
    by (rewrite Z.gtb_ltb; apply Z.ltb_ge; lia).
  apply Z.eqb_eq in Hm.
  run_code.
  eexists; split; [reflexivity|]. by cbn.
Qed.

(** C2.  A dispatch that returns 0 but leaves a required handle NULL is
    to be treated as a failed decode (MissingField).  Here the dispatcher
    returns 0 and fills the tokens handle only: the code hands the twelve
    token bytes to [fwrite] on the token stream and then reads
    [boot_nonce_param->value] through the NULL handle, instead of returning
    a failure. *)
Theorem absent_boot_nonce_handle_is_read_through :
  exists w,
    run_operation Fixture.K Fixture.tokens_in_set_tokens_only GetTokensInSet ∅
    = (Faulted (Null_dereference boot_nonce_param), w) /\
    fwrites (trace w) = [(0%nat, Fixture.tokens)].
Proof. eexists. split; vm_compute; reflexivity. Qed.
Ltac case_answer :=
  match goal with
  | |- context [match ?x with _ => _ end] =>
    lazymatch x with
    | context [match _ with _ => _ end] => fail
    | _ => destruct x eqn:?
    end
  end.

Ltac explore := repeat (unfold_code; try case_answer).

Ltac booleans :=
  repeat match goal with
         | H : negb _ = true |- _ => apply negb_true_iff in H
         | H : negb _ = false |- _ => apply negb_false_iff in H
         | H : (_ =? _) = true |- _ => apply Z.eqb_eq in H
         | H : (_ =? _) = false |- _ => apply Z.eqb_neq in H
         | H : (_ >? _) = true |- _ => apply Z.gtb_lt in H
         | H : (_ >? _) = false |- _ => rewrite Z.gtb_ltb in H; apply Z.ltb_ge in H
         end.

Lemma mem_read_Some (obj : list byte) (n : Z) (bs : list byte) :
  mem_read obj n = Some bs ->
  0 <= n <= Z.of_nat (length obj) /\ bs = take (Z.to_nat n) obj.
Proof.
  unfold mem_read. case_bool_decide; [|done]. by intros [= <-].
Qed.

Ltac settle_tests :=
  repeat match goal with
         | H : negb _ = true |- _ => apply negb_true_iff in H
         | H : negb _ = false |- _ => apply negb_false_iff in H
         end;
  repeat match goal with
         | H : (?x =? _) = true |- _ => is_var x; apply Z.eqb_eq in H; subst x
         end.

Ltac decide_stages :=
  cbn; unfold stage_failed, event_failed, validation_message, failure_status;
  cbn;
  repeat match goal with
         | H : ?b = _ |- context [?b] => rewrite H
         end;
  cbn.

(** A run of [htool_get_token_set_info] that returns 0 went through every
    step, and what it wrote is the [info] local as the dispatcher left
    it. *)
Lemma token_set_info_returns_0 (K : constants) (e : env)
  (files : gmap string (list byte)) (w : world) :
  run_operation K e GetTokenSetInfo files = (Returned 0, w) ->
  exists dev info_path challenge set_idx out,
    token_set_info_dispatches K e dev info_path challenge set_idx /\
    htool_exec_security_v2_cmd e dev
      (token_set_info_request K set_idx challenge) (token_set_info_slots K)
    = (0, out) /\
    w = token_set_info_success_world K files dev info_path challenge set_idx out
          (object_bytes (uninitialised e "info")
             (store_slots (token_set_info_slots K) out (fun _ => None) "info")
             (sizeof_token_set_info K)).
Proof.
  revert w. explore; intros w Hrun; inversion Hrun; subst; clear Hrun; booleans;
    try done.
  subst.
  eexists _, _, _, _, _. repeat split; eauto.
Qed.

(** A run of [htool_get_token_set_count] that returns 0 went through every
    step, and what it wrote are the three locals as the dispatcher left
    them. *)
Lemma token_set_count_returns_0 (K : constants) (e : env)
  (files : gmap string (list byte)) (w : world) :
  run_operation K e GetTokenSetCount files = (Returned 0, w) ->
  exists dev num_ids_path boot_nonce_path signature_path challenge out,
    token_set_count_dispatches K e dev num_ids_path boot_nonce_path
      signature_path challenge /\
    htool_exec_security_v2_cmd e dev
      (token_set_count_request K challenge) (token_set_count_slots K)
    = (0, out) /\
    let locals := store_slots (token_set_count_slots K) out (fun _ => None) in
    w = token_set_count_success_world K files dev num_ids_path boot_nonce_path
          signature_path challenge out
          (object_bytes (uninitialised e "num_ids") (locals "num_ids")
             sizeof_uint32_t)
          (object_bytes (uninitialised e "boot_nonce") (locals "boot_nonce")
             (sizeof_boot_nonce K))
          (object_bytes (uninitialised e "signature") (locals "signature")
             (sizeof_signature K)).
Proof.
  revert w. explore; intros w Hrun; inversion Hrun; subst; clear Hrun; booleans;
    try done.
  subst.
  eexists _, _, _, _, _, _. repeat split; eauto.
Qed.

(** A run of [htool_get_tokens_in_set] that returns 0 went through every
    step, and the tokens field passed both checks. *)
Lemma tokens_in_set_returns_0 (K : constants) (e : env)
  (files : gmap string (list byte)) (w : world) :
  run_operation K e GetTokensInSet files = (Returned 0, w) ->
  exists dev token_path signature_path boot_nonce_path challenge set_idx out
         tokens boot_nonce sig,
    tokens_in_set_dispatches K e dev token_path signature_path boot_nonce_path
      challenge set_idx /\
    htool_exec_security_v2_serialized_cmd e dev
      (tokens_in_set_request K set_idx challenge) response_handles = (0, out) /\
    store_handles response_handles out (fun _ => None) tokens_param
    = Some tokens /\
    store_handles response_handles out (fun _ => None) boot_nonce_param
    = Some boot_nonce /\
    store_handles response_handles out (fun _ => None) sig_param = Some sig /\
    sp_size tokens <= MAX_TOKEN_RESPONSE_SIZE K /\
    sp_size tokens `mod` TOKEN_BYTE_SIZE K = 0 /\
    w = tokens_in_set_success_world K files dev token_path signature_path
          boot_nonce_path challenge set_idx out tokens boot_nonce sig.
Proof.
  revert w. explore; intros w Hrun; inversion Hrun; subst; clear Hrun; booleans;
    try done.
  subst.
  repeat match goal with H : mem_read _ _ = Some _ |- _ =>
    apply mem_read_Some in H as [? ->] end.
  eexists _, _, _, _, _, _, _, _, _, _. repeat split; eauto; lia.
Qed.

(** ** GetTokenSetInfo *)

(** C7.  Under V2, when [set_index] resolves, the sink opens and the fixed
    dispatch succeeds having stored the bytes of an info record in the
    [info] slot, the command returns 0 and the info sink holds exactly
    those bytes, reserved bytes included: the one [fwrite] passes the
    record's memory unchanged. *)
Theorem token_set_info_success
  (K : constants) (e : env) (files : gmap string (list byte))
  (dev : libhoth_device) (info_path : string)
  (challenge : list byte) (set_idx : Z) (out : list (list byte))
  (representation : token_set_info -> list byte) (record : token_set_info) :
  token_set_info_dispatches K e dev info_path challenge set_idx ->
  htool_exec_security_v2_cmd e dev
    (token_set_info_request K set_idx challenge) (token_set_info_slots K)
  = (0, out) ->
  store_slots (token_set_info_slots K) out (fun _ => None) "info"
  = Some (representation record) ->
  Z.of_nat (length (representation record)) = sizeof_token_set_info K ->
  exists w,
    run_operation K e GetTokenSetInfo files = (Returned 0, w) /\
    sink_writes w = [(info_path, representation record)] /\
    fs w !! info_path = Some (representation record).
Proof.
  intros (H1 & H2 & H3 & H4 & H5 & H6) Hx Hi Hlen.
  unfold_requests Hx. unfold_requests Hi.
  run_code. rewrite !object_bytes_filled by done.
  eexists; split; [reflexivity|]. split; [done|].
  cbn. rewrite lookup_fs_flush, lookup_fs_truncate.
  repeat case_decide; try congruence.
  by rewrite overlay_nil_l.
Qed.

Lemma token_set_info_success_witness :
  exists w,
    run_operation Fixture.K Fixture.token_set_info_success GetTokenSetInfo ∅
    = (Returned 0, w) /\
    sink_writes w = [("token_set_info.bin", Fixture.layout Fixture.info_record)] /\
    fs w !! "token_set_info.bin" = Some (Fixture.layout Fixture.info_record).
Proof.
  apply (token_set_info_success
           Fixture.K Fixture.token_set_info_success ∅ Fixture.dev
           "token_set_info.bin" Fixture.challenge 5
           [Fixture.info; Fixture.boot_nonce; Fixture.signature]
           Fixture.layout Fixture.info_record).
  - repeat split; reflexivity.
  - reflexivity.
  - reflexivity.
  - reflexivity.
Defined.

(** C10.  A successful [htool_get_token_set_info] writes one sink only.
    The dispatcher is asked to decode three fields (the info record, the
    boot nonce and the signature) and its answer fills the three locals,
    but the only [fopen] and the only [fwrite] are for the
    [token_set_info] path, and what is written is the [info] local as the
    dispatcher's answer left it; the [boot_nonce] and [signature] locals
    are passed to no [fwrite], nothing is printed, every other file is as
    it was and the caller receives nothing but the status 0.  A successful
    [htool_get_token_set_count] or [htool_get_tokens_in_set], in contrast,
    writes each of the three fields of the dispatcher's answer to the sink
    opened for it. *)
Theorem token_set_info_writes_only_its_own_sink
  (K : constants) (e : env) (files : gmap string (list byte))
  (op : operation) (w : world) :
  run_operation K e op files = (Returned 0, w) ->
  match op with
  | GetTokenSetInfo =>
    exists dev info_path challenge set_idx out,
      token_set_info_dispatches K e dev info_path challenge set_idx /\
      htool_exec_security_v2_cmd e dev
        (token_set_info_request K set_idx challenge) (token_set_info_slots K)
      = (0, out) /\
      let locals := store_slots (token_set_info_slots K) out (fun _ => None) in
      let info :=
        object_bytes (uninitialised e "info") (locals "info")
          (sizeof_token_set_info K) in
      dispatch_calls (trace w)
      = [(token_set_info_request K set_idx challenge,
          Fixed (token_set_info_slots K), 0)] /\
      fopens (trace w) = [(info_path, Some 0%nat)] /\
      fwrites (trace w) = [(0%nat, info)] /\
      sink_writes w = [(info_path, info)] /\
      prints (trace w) = [] /\
      fs w !! info_path = Some info /\
      (forall q, q <> info_path -> fs w !! q = files !! q)
  | GetTokenSetCount =>
    exists dev num_ids_path boot_nonce_path signature_path challenge out,
      token_set_count_dispatches K e dev num_ids_path boot_nonce_path
        signature_path challenge /\
      htool_exec_security_v2_cmd e dev
        (token_set_count_request K challenge) (token_set_count_slots K)
      = (0, out) /\
      let locals := store_slots (token_set_count_slots K) out (fun _ => None) in
      dispatch_calls (trace w)
      = [(token_set_count_request K challenge,
          Fixed (token_set_count_slots K), 0)] /\
      fopens (trace w)
      = [ (num_ids_path, Some 0%nat); (boot_nonce_path, Some 1%nat);
          (signature_path, Some 2%nat) ] /\
      sink_writes w
      = [ (num_ids_path,
           object_bytes (uninitialised e "num_ids") (locals "num_ids")
             sizeof_uint32_t);
          (boot_nonce_path,
           object_bytes (uninitialised e "boot_nonce") (locals "boot_nonce")
             (sizeof_boot_nonce K));
          (signature_path,
           object_bytes (uninitialised e "signature") (locals "signature")
             (sizeof_signature K)) ]
  | GetTokensInSet =>
    exists dev token_path signature_path boot_nonce_path challenge set_idx out
           tokens boot_nonce sig,
      tokens_in_set_dispatches K e dev token_path signature_path
        boot_nonce_path challenge set_idx /\
      htool_exec_security_v2_serialized_cmd e dev
        (tokens_in_set_request K set_idx challenge) response_handles
      = (0, out) /\
      let handles := store_handles response_handles out (fun _ => None) in
      handles tokens_param = Some tokens /\
      handles boot_nonce_param = Some boot_nonce /\
      handles sig_param = Some sig /\
      dispatch_calls (trace w)
      = [(tokens_in_set_request K set_idx challenge,
          Serialized response_handles, 0)] /\
      fopens (trace w)
      = [ (token_path, Some 0%nat); (signature_path, Some 1%nat);
          (boot_nonce_path, Some 2%nat) ] /\
      sink_writes w
      = [ (token_path, field tokens);
          (boot_nonce_path, field boot_nonce);
          (signature_path, field sig) ]
  end.
Proof.
  intros Hrun. destruct op.
  - apply tokens_in_set_returns_0 in Hrun
      as (dev & tp & sp & bp & ch & idx & out & t & b & s
          & Hpre & Hx & Ht & Hb & Hs & _ & _ & ->).
    exists dev, tp, sp, bp, ch, idx, out, t, b, s.
    by repeat (split; [done|]).
  - apply token_set_count_returns_0 in Hrun
      as (dev & p1 & p2 & p3 & ch & out & Hpre & Hx & ->).
    exists dev, p1, p2, p3, ch, out.
    by repeat (split; [done|]).
  - apply token_set_info_returns_0 in Hrun
      as (dev & p & ch & idx & out & Hpre & Hx & ->).
    exists dev, p, ch, idx, out.
    split; [done|]. split; [done|]. cbn.
    repeat (split; [done|]). split.
    + rewrite lookup_fs_flush, lookup_fs_truncate.
      repeat case_decide; try congruence. by rewrite overlay_nil_l.
    + intros q Hq.
      repeat first [rewrite lookup_fs_flush | rewrite lookup_fs_truncate
                   | case_decide]; congruence.
Qed.

Lemma token_set_info_writes_only_its_own_sink_witness :
  (let e := Fixture.token_set_info_success in
   let w := (run_operation Fixture.K e GetTokenSetInfo ∅).2 in
   exists dev info_path challenge set_idx out,
     token_set_info_dispatches Fixture.K e dev info_path challenge set_idx /\
     htool_exec_security_v2_cmd e dev
       (token_set_info_request Fixture.K set_idx challenge)
       (token_set_info_slots Fixture.K)
     = (0, out) /\
     let locals :=
       store_slots (token_set_info_slots Fixture.K) out (fun _ => None) in
     let info :=
       object_bytes (uninitialised e "info") (locals "info")
         (sizeof_token_set_info Fixture.K) in
     dispatch_calls (trace w)
     = [(token_set_info_request Fixture.K set_idx challenge,
         Fixed (token_set_info_slots Fixture.K), 0)] /\
     fopens (trace w) = [(info_path, Some 0%nat)] /\
     fwrites (trace w) = [(0%nat, info)] /\
     sink_writes w = [(info_path, info)] /\
     prints (trace w) = [] /\
     fs w !! info_path = Some info /\
     (forall q, q <> info_path ->
                fs w !! q = (∅ : gmap string (list byte)) !! q))
  /\ (let e := Fixture.token_set_count_success in
      let w := (run_operation Fixture.K e GetTokenSetCount ∅).2 in
      exists dev num_ids_path boot_nonce_path signature_path challenge out,
        token_set_count_dispatches Fixture.K e dev num_ids_path
          boot_nonce_path signature_path challenge /\
        htool_exec_security_v2_cmd e dev
          (token_set_count_request Fixture.K challenge)
          (token_set_count_slots Fixture.K)
        = (0, out) /\
        let locals :=
          store_slots (token_set_count_slots Fixture.K) out (fun _ => None) in
        dispatch_calls (trace w)
        = [(token_set_count_request Fixture.K challenge,
            Fixed (token_set_count_slots Fixture.K), 0)] /\
        fopens (trace w)
        = [ (num_ids_path, Some 0%nat); (boot_nonce_path, Some 1%nat);
            (signature_path, Some 2%nat) ] /\
        sink_writes w
        = [ (num_ids_path,
             object_bytes (uninitialised e "num_ids") (locals "num_ids")
               sizeof_uint32_t);
            (boot_nonce_path,
             object_bytes (uninitialised e "boot_nonce")
               (locals "boot_nonce") (sizeof_boot_nonce Fixture.K));
            (signature_path,
             object_bytes (uninitialised e "signature") (locals "signature")
               (sizeof_signature Fixture.K)) ])
  /\ (let e := Fixture.tokens_in_set_success in
      let w := (run_operation Fixture.K e GetTokensInSet ∅).2 in
      exists dev token_path signature_path boot_nonce_path challenge set_idx
             out tokens boot_nonce sig,
        tokens_in_set_dispatches Fixture.K e dev token_path signature_path
          boot_nonce_path challenge set_idx /\
        htool_exec_security_v2_serialized_cmd e dev
          (tokens_in_set_request Fixture.K set_idx challenge) response_handles
        = (0, out) /\
        let handles := store_handles response_handles out (fun _ => None) in
        handles tokens_param = Some tokens /\
        handles boot_nonce_param = Some boot_nonce /\
        handles sig_param = Some sig /\
        dispatch_calls (trace w)
        = [(tokens_in_set_request Fixture.K set_idx challenge,
            Serialized response_handles, 0)] /\
        fopens (trace w)
        = [ (token_path, Some 0%nat); (signature_path, Some 1%nat);
            (boot_nonce_path, Some 2%nat) ] /\
        sink_writes w
        = [ (token_path, field tokens);
            (boot_nonce_path, field boot_nonce);
            (signature_path, field sig) ]).
Proof.
  split; [|split].
  - apply (token_set_info_writes_only_its_own_sink
             Fixture.K Fixture.token_set_info_success ∅ GetTokenSetInfo).
    vm_compute. reflexivity.
  - apply (token_set_info_writes_only_its_own_sink
             Fixture.K Fixture.token_set_count_success ∅ GetTokenSetCount).
    vm_compute. reflexivity.
  - apply (token_set_info_writes_only_its_own_sink
             Fixture.K Fixture.tokens_in_set_success ∅ GetTokensInSet).
    vm_compute. reflexivity.
Defined.

(** ** What is handed to the dispatcher *)

Ltac in_log H :=
  repeat (apply elem_of_cons in H as [H|H]);
  [ .. | by apply elem_of_nil in H ].

(** C6.  Whenever a command calls a dispatcher, the module speaks V2 and
    the request parameters are, in this order: the four-byte [set_index]
    and the challenge nonce for [htool_get_tokens_in_set] and
    [htool_get_token_set_info]; the challenge nonce alone for
    [htool_get_token_set_count].  [htool_get_tokens_in_set] passes its
    response handles in the order tokens, boot nonce, signature, and the
    i-th field the dispatcher returns is the one the i-th handle holds
    afterwards. *)
Theorem request_parameters_at_dispatch
  (K : constants) (e : env) (files : gmap string (list byte))
  (op : operation) (a : exec_args) (binding : response_binding) (st : Z) :
  (a, binding, st) ∈ dispatch_calls (trace (run_operation K e op files).2) ->
  exists dev challenge,
    htool_libhoth_device e = Some dev /\
    htool_get_security_version e dev = LIBHOTH_SECURITY_V2 /\
    RAND_bytes e (sizeof_nonce K) = (1, challenge) /\
    match op with
    | GetTokensInSet =>
      exists set_idx,
        htool_get_param_u32 e "set_index" = Some set_idx /\
        request_params a
        = [ {| param_data := U32 set_idx; param_size := 4 |};
            {| param_data := Bytes challenge; param_size := sizeof_nonce K |} ] /\
        binding = Serialized [tokens_param; boot_nonce_param; sig_param] /\
        forall tokens boot_nonce sig h,
          store_handles [tokens_param; boot_nonce_param; sig_param]
            [Some tokens; Some boot_nonce; Some sig] (fun _ => None) h
          = Some match h with
                 | tokens_param => tokens
                 | boot_nonce_param => boot_nonce
                 | sig_param => sig
                 end
    | GetTokenSetInfo =>
      exists set_idx,
        htool_get_param_u32 e "set_index" = Some set_idx /\
        request_params a
        = [ {| param_data := U32 set_idx; param_size := 4 |};
            {| param_data := Bytes challenge; param_size := sizeof_nonce K |} ]
    | GetTokenSetCount =>
      request_params a
      = [ {| param_data := Bytes challenge; param_size := sizeof_nonce K |} ]
    end.
Proof.
  destruct op; explore; cbn; intros Hin; in_log Hin;
    injection Hin as -> -> ->; booleans; subst;
    repeat first [ eassumption | reflexivity | eexists | split
                 | by intros ? ? ? [] ].
Qed.

Lemma request_parameters_at_dispatch_witness :
  exists dev challenge,
    htool_libhoth_device Fixture.tokens_in_set_success = Some dev /\
    htool_get_security_version Fixture.tokens_in_set_success dev
    = LIBHOTH_SECURITY_V2 /\
    RAND_bytes Fixture.tokens_in_set_success (sizeof_nonce Fixture.K)
    = (1, challenge) /\
    exists set_idx,
      htool_get_param_u32 Fixture.tokens_in_set_success "set_index"
      = Some set_idx /\
      request_params (tokens_in_set_request Fixture.K 5 Fixture.challenge)
      = [ {| param_data := U32 set_idx; param_size := 4 |};
          {| param_data := Bytes challenge;
             param_size := sizeof_nonce Fixture.K |} ] /\
      Serialized response_handles
      = Serialized [tokens_param; boot_nonce_param; sig_param] /\
      forall tokens boot_nonce sig h,
        store_handles [tokens_param; boot_nonce_param; sig_param]
          [Some tokens; Some boot_nonce; Some sig] (fun _ => None) h
        = Some match h with
               | tokens_param => tokens
               | boot_nonce_param => boot_nonce
               | sig_param => sig
               end.
Proof.
  apply (request_parameters_at_dispatch
           Fixture.K Fixture.tokens_in_set_success ∅ GetTokensInSet
           (tokens_in_set_request Fixture.K 5 Fixture.challenge)
           (Serialized response_handles) 0).
  vm_compute. apply list_elem_of_here.
Defined.

(** ** The protocol version *)

(** C4, as stated, fails.  With a module that speaks another version,
    [htool_get_tokens_in_set] has resolved the three paths, opened (and so
    truncated) the three sinks, drawn the nonce and resolved [set_index]
    before it looks at the version. *)
Lemma version_is_not_probed_first :
  let w := (run_operation Fixture.K Fixture.v3_module GetTokensInSet
              {[ "token_output.bin" := [Byte.x2a] ]}).2 in
  ~ probes_version_first (trace w) /\
  take 3 (trace w)
  = [ Ev_libhoth_device (Some Fixture.dev);
      Ev_get_param_string "token_output" (Some "token_output.bin");
      Ev_fopen "token_output.bin" (Some 0%nat) ] /\
  length (fopens (trace w)) = 3%nat /\
  rand_calls (trace w) = [(1, Fixture.challenge)] /\
  fs w !! "token_output.bin" = Some [].
Proof.
  split; [|by vm_compute].
  intros Hfirst.
  destruct (Hfirst Fixture.dev _ eq_refl) as (v & rest & Hrest).
  vm_compute in Hrest. discriminate Hrest.
Qed.

(** C4, amended.  The version is probed only after the parameters have
    been resolved, the sinks opened and the nonce drawn: whenever a command
    asks for the version, its log up to there is the device, then, each
    with the answer that lets it go on and in this order, for
    [htool_get_tokens_in_set] the token, signature and boot-nonce paths
    each followed by its [fopen], the nonce and [set_index]; for
    [htool_get_token_set_count] the count, boot-nonce and signature paths
    each followed by its [fopen], and the nonce; for
    [htool_get_token_set_info] [set_index], the nonce, the path and its
    [fopen].  When the probe answers anything but V2, the command prints
    its diagnostic and returns -1 at once: the dispatcher is never called
    and nothing is written. *)
Theorem unsupported_version_returns_before_dispatch
  (K : constants) (e : env) (files : gmap string (list byte))
  (op : operation) (v : libhoth_security_version) :
  v ∈ version_probes (trace (run_operation K e op files).2) ->
  exists dev first_path second_path third_path challenge set_idx rest o w,
    run_operation K e op files = (o, w) /\
    trace w
    = steps_before_probe K op dev first_path second_path third_path
        challenge set_idx
      ++ Ev_get_security_version v :: rest /\
    (v <> LIBHOTH_SECURITY_V2 ->
     o = Returned (-1) /\
     rest = [Ev_print Msg_v3_not_supported] /\
     dispatch_calls (trace w) = [] /\
     fwrites (trace w) = []).
Proof.
  destruct op; explore; cbn; intros Hin; in_log Hin; subst; try done;
    booleans; subst;
    eexists _, _, _, _, _, _, _, _, _;
    (split; [reflexivity|]); (split; [reflexivity|]);
    intros Hv; try done.
  Unshelve. all: first [exact "" | exact 0].
Qed.

Lemma unsupported_version_returns_before_dispatch_witness :
  exists dev first_path second_path third_path challenge set_idx rest o w,
    run_operation Fixture.K Fixture.v3_module GetTokensInSet ∅ = (o, w) /\
    trace w
    = steps_before_probe Fixture.K GetTokensInSet dev first_path second_path
        third_path challenge set_idx
      ++ Ev_get_security_version (LIBHOTH_SECURITY_other 1) :: rest /\
    (LIBHOTH_SECURITY_other 1 <> LIBHOTH_SECURITY_V2 ->
     o = Returned (-1) /\
     rest = [Ev_print Msg_v3_not_supported] /\
     dispatch_calls (trace w) = [] /\
     fwrites (trace w) = []).
Proof.
  apply (unsupported_version_returns_before_dispatch
           Fixture.K Fixture.v3_module ∅ GetTokensInSet
           (LIBHOTH_SECURITY_other 1)).
  vm_compute. apply list_elem_of_here.
Defined.

(** ** When a run does not return *)

(** X20.  A run fails to return in two situations only.  Either a step before
    the dispatch failed and [goto cleanup] skipped the initialisation of a
    [FILE*] that [cleanup] tests (nothing has been dispatched or written
    then); or, in [htool_get_tokens_in_set] alone, the serialized
    dispatcher reported success and the tokens handle passed its checks,
    but the response lacks what the code reads next: the boot-nonce or the
    signature handle left NULL, or a field that extends past the memory
    its handle points into.  [htool_get_token_set_count] and
    [htool_get_token_set_info] always return once they have dispatched. *)
Lemma faults_classified
  (K : constants) (e : env) (files : gmap string (list byte))
  (op : operation) (u : fault) (w : world) :
  run_operation K e op files = (Faulted u, w) ->
  (exists v,
      u = Indeterminate_FILE v /\
      existsb event_failed (trace w) = true /\
      dispatch_calls (trace w) = [] /\
      fwrites (trace w) = [])
  \/ (op = GetTokensInSet /\
      existsb (stage_failed K) (trace w) = false /\
      (exists a, dispatch_calls (trace w) = [(a, Serialized response_handles, 0)]) /\
      (u = Null_dereference boot_nonce_param
       \/ u = Null_dereference sig_param
       \/ u = Read_out_of_bounds)).
Proof.
  revert w.
  destruct op; explore; intros w Hrun; inversion Hrun; subst; clear Hrun;
    settle_tests; decide_stages; booleans;
    first [ left; eexists; by repeat split
          | right; repeat split; eauto ].
Qed.

(** ** Failures *)




(** ** Nonce generation *)

(** X19.  A failed [RAND_bytes] is never retried and never followed by a
    dispatch or a write.  [htool_get_tokens_in_set] and
    [htool_get_token_set_count] then return -1;
    [htool_get_token_set_info] jumps to [cleanup] before
    [token_set_info_file_ptr] has been initialised and tests it there. *)
Lemma nonce_failure_stops_the_command
  (K : constants) (e : env) (files : gmap string (list byte))
  (op : operation) (rc : Z) (bytes : list byte) :
  (rc, bytes) ∈ rand_calls (trace (run_operation K e op files).2) ->
  rc <> 1 ->
  exists w,
    run_operation K e op files
    = (match op with
       | GetTokenSetInfo => Faulted (Indeterminate_FILE token_set_info_file_ptr)
       | _ => Returned (-1)
       end, w) /\
    rand_calls (trace w) = [(rc, bytes)] /\
    dispatch_calls (trace w) = [] /\
    fwrites (trace w) = [].
Proof.
  destruct op; explore; cbn; intros Hin Hrc; in_log Hin;
    injection Hin as -> ->; booleans; try done;
    by eexists.
Qed.

(** C8.  A command whose nonce generation fails is to fail at once.  For
    [htool_get_token_set_info] with [RAND_bytes]
    returning 0, the code jumps to [cleanup] from a point above the
    declaration of [token_set_info_file_ptr] and then tests that pointer,
    whose value is indeterminate: whether the command returns -1 or hands
    a stray pointer to [fclose] is not determined by the code.  (No
    dispatch and no second [RAND_bytes] call happen on the way.) *)
Theorem token_set_info_nonce_failure_tests_unset_stream :
  exists w,
    run_operation Fixture.K Fixture.no_entropy GetTokenSetInfo ∅
    = (Faulted (Indeterminate_FILE token_set_info_file_ptr), w) /\
    trace w
    = [ Ev_libhoth_device (Some Fixture.dev);
        Ev_get_param_u32 "set_index" (Some 5);
        Ev_RAND_bytes 4 (0, []);
        Ev_print Msg_rand_bytes_failed ].
Proof. eexists. split; vm_compute; reflexivity. Qed.

(** ** Beyond the dispatch: further properties of the three commands *)

(** X1.  Without a device every command returns -1 at once: the device
    lookup is the only call made, no file is touched and no stream is
    opened. *)
Theorem no_device_returns_at_once
  (K : constants) (e : env) (files : gmap string (list byte)) (op : operation) :
  htool_libhoth_device e = None ->
  run_operation K e op files
  = (Returned (-1),
     {| fs := files; streams := []; trace := [Ev_libhoth_device None] |}).
Proof. intros H. destruct op; run_code; reflexivity. Qed.

Lemma no_device_returns_at_once_witness :
  run_operation Fixture.K Scenario.no_device GetTokenSetInfo ∅
  = (Returned (-1),
     {| fs := ∅; streams := []; trace := [Ev_libhoth_device None] |}).
Proof.
  apply (no_device_returns_at_once Fixture.K Scenario.no_device ∅ GetTokenSetInfo).
  reflexivity.
Defined.

(** X2.  [htool_get_token_set_count]: when the three paths resolve and
    open, the nonce is drawn, the module speaks V2 and the fixed dispatch
    succeeds having filled the three destinations, the command returns 0
    and passes the count, the boot nonce and the signature to [fwrite] on
    their own streams, in this order.  When the three sinks are three
    different files, each file ends up holding exactly its field. *)
Theorem token_set_count_success
  (K : constants) (e : env) (files : gmap string (list byte))
  (dev : libhoth_device) (num_ids_path boot_nonce_path signature_path : string)
  (challenge : list byte) (out : list (list byte))
  (num_ids boot_nonce signature : list byte) :
  token_set_count_dispatches K e dev num_ids_path boot_nonce_path
    signature_path challenge ->
  htool_exec_security_v2_cmd e dev
    (token_set_count_request K challenge) (token_set_count_slots K) = (0, out) ->
  store_slots (token_set_count_slots K) out (fun _ => None) "num_ids"
  = Some num_ids ->
  store_slots (token_set_count_slots K) out (fun _ => None) "boot_nonce"
  = Some boot_nonce ->
  store_slots (token_set_count_slots K) out (fun _ => None) "signature"
  = Some signature ->
  Z.of_nat (length num_ids) = sizeof_uint32_t ->
  Z.of_nat (length boot_nonce) = sizeof_boot_nonce K ->
  Z.of_nat (length signature) = sizeof_signature K ->
  exists w,
    run_operation K e GetTokenSetCount files = (Returned 0, w) /\
    sink_writes w = [ (num_ids_path, num_ids);
                      (boot_nonce_path, boot_nonce);
                      (signature_path, signature) ] /\
    (num_ids_path <> boot_nonce_path -> num_ids_path <> signature_path ->
     boot_nonce_path <> signature_path ->
     fs w !! num_ids_path = Some num_ids /\
     fs w !! boot_nonce_path = Some boot_nonce /\
     fs w !! signature_path = Some signature).
Proof.
  intros (H1 & H2 & H3 & H4 & H5 & H6 & H7 & H8 & H9) Hx Hn Hb Hs Ln Lb Ls.
  unfold_requests Hx. unfold_requests Hn. unfold_requests Hb.
  unfold_requests Hs.
  run_code. rewrite !object_bytes_filled by done.
  eexists; split; [reflexivity|]. split; [done|].
  intros Hnb Hns Hbs. cbn.
  rewrite !lookup_fs_flush, !lookup_fs_truncate.
  repeat case_decide; try congruence.
  by rewrite !overlay_nil_l.
Qed.

Lemma token_set_count_success_witness :
  exists w,
    run_operation Fixture.K Fixture.token_set_count_success GetTokenSetCount ∅
    = (Returned 0, w) /\
    sink_writes w = [ ("num_ids_output.bin", Fixture.num_ids);
                      ("boot_nonce_output.bin", Fixture.boot_nonce);
                      ("signature_output.bin", Fixture.signature) ] /\
    ("num_ids_output.bin" <> "boot_nonce_output.bin" ->
     "num_ids_output.bin" <> "signature_output.bin" ->
     "boot_nonce_output.bin" <> "signature_output.bin" ->
     fs w !! "num_ids_output.bin" = Some Fixture.num_ids /\
     fs w !! "boot_nonce_output.bin" = Some Fixture.boot_nonce /\
     fs w !! "signature_output.bin" = Some Fixture.signature).
Proof.
  apply (token_set_count_success
           Fixture.K Fixture.token_set_count_success ∅ Fixture.dev
           "num_ids_output.bin" "boot_nonce_output.bin" "signature_output.bin"
           Fixture.challenge
           [Fixture.num_ids; Fixture.boot_nonce; Fixture.signature]).
  - repeat split; reflexivity.
  - reflexivity.
  - reflexivity.
  - reflexivity.
  - reflexivity.
  - reflexivity.
  - reflexivity.
  - reflexivity.
Defined.

Ltac fs_lookups :=
  repeat first [ rewrite lookup_fs_flush | rewrite lookup_fs_truncate
               | case_decide ];
  try congruence.

(** X3.  When the dispatcher answers a command with a non-zero status,
    the command returns exactly that status.  It prints the status, calls
    [fwrite] on no stream, and leaves through [cleanup]: every sink of the
    command has been opened and is closed again, and each of them is an
    empty file. *)
Theorem rejected_command_returns_its_status
  (K : constants) (e : env) (files : gmap string (list byte))
  (op : operation) (a : exec_args) (binding : response_binding) (st : Z) :
  (a, binding, st) ∈ dispatch_calls (trace (run_operation K e op files).2) ->
  st <> 0 ->
  exists w,
    run_operation K e op files = (Returned st, w) /\
    fwrites (trace w) = [] /\
    prints (trace w) = [Msg_command_status st] /\
    length (streams w) = sink_count op /\
    forallb (fun s => negb (f_open s)) (streams w) = true /\
    (forall p, p ∈ opened_paths (trace w) -> fs w !! p = Some []).
Proof.
  destruct op; explore; cbn; intros Hin Hst; in_log Hin;
    injection Hin as -> -> ->; booleans; try done;
    flush_empty;
    (eexists; split; [reflexivity|]); cbn; repeat split;
    intros p Hp; in_log Hp; subst; fs_lookups.
Qed.

Lemma rejected_command_returns_its_status_witness :
  exists w,
    run_operation Fixture.K Fixture.command_rejected GetTokensInSet ∅
    = (Returned 5, w) /\
    fwrites (trace w) = [] /\
    prints (trace w) = [Msg_command_status 5] /\
    length (streams w) = sink_count GetTokensInSet /\
    forallb (fun s => negb (f_open s)) (streams w) = true /\
    (forall p, p ∈ opened_paths (trace w) -> fs w !! p = Some []).
Proof.
  apply (rejected_command_returns_its_status
           Fixture.K Fixture.command_rejected ∅ GetTokensInSet
           (tokens_in_set_request Fixture.K 5 Fixture.challenge)
           (Serialized response_handles) 5).
  - vm_compute. apply list_elem_of_here.
  - lia.
Defined.

(** ** Exactly when a command succeeds *)

Ltac reads_in_bounds :=
  repeat match goal with
         | H : mem_read _ _ = Some _ |- _ => apply mem_read_Some in H as [? ->]
         end.

(** X4.  [htool_get_tokens_in_set] returns 0 exactly when the device is
    there, the three output paths resolve and open, [RAND_bytes] returns 1,
    [set_index] resolves, the module speaks V2, the dispatcher returns 0
    having set all three handles, each field lies inside the memory its
    handle points into, and the tokens field is no larger than the
    response buffer and a multiple of [TOKEN_BYTE_SIZE] long. *)
Theorem tokens_in_set_returns_0_exactly_when
  (K : constants) (e : env) (files : gmap string (list byte)) :
  (exists w, run_operation K e GetTokensInSet files = (Returned 0, w))
  <->
  (exists dev token_path signature_path boot_nonce_path challenge set_idx out
          tokens boot_nonce sig,
      tokens_in_set_dispatches K e dev token_path signature_path
        boot_nonce_path challenge set_idx /\
      htool_exec_security_v2_serialized_cmd e dev
        (tokens_in_set_request K set_idx challenge) response_handles
      = (0, out) /\
      store_handles response_handles out (fun _ => None) tokens_param
      = Some tokens /\
      store_handles response_handles out (fun _ => None) boot_nonce_param
      = Some boot_nonce /\
      store_handles response_handles out (fun _ => None) sig_param = Some sig /\
      0 <= sp_size tokens <= Z.of_nat (length (sp_value tokens)) /\
      0 <= sp_size boot_nonce <= Z.of_nat (length (sp_value boot_nonce)) /\
      0 <= sp_size sig <= Z.of_nat (length (sp_value sig)) /\
      sp_size tokens <= MAX_TOKEN_RESPONSE_SIZE K /\
      sp_size tokens `mod` TOKEN_BYTE_SIZE K = 0).
Proof.
  split.
  - intros [w Hrun]. revert w Hrun.
    explore; intros w Hrun; inversion Hrun; subst; clear Hrun; booleans;
      try done.
    subst. reads_in_bounds.
    eexists _, _, _, _, _, _, _, _, _, _.
    repeat split; eauto; lia.
  - intros (dev & tp & sp & bp & ch & idx & out & t & b & s
            & (H1 & H2 & H3 & H4 & H5 & H6 & H7 & H8 & H9 & H10)
            & Hx & Ht & Hb & Hs & Rt & Rb & Rs & Hcap & Hm).
    unfold_requests Hx. unfold_requests Ht. unfold_requests Hb.
    unfold_requests Hs.
    apply mem_read_in_bounds in Rt, Rb, Rs.
    assert ((sp_size t >? MAX_TOKEN_RESPONSE_SIZE K) = false) as Hcap'
      by (rewrite Z.gtb_ltb; apply Z.ltb_ge; lia).
    apply Z.eqb_eq in Hm.
    run_code. by eexists.
Qed.

(** X5.  [htool_get_token_set_count] returns 0 exactly when the device is
    there, the three output paths resolve and open, [RAND_bytes] returns 1,
    the module speaks V2 and the dispatcher returns 0.  What the
    dispatcher stored into the count, boot-nonce and signature locals
    plays no part: the code does not look at them before it writes them. *)
Theorem token_set_count_returns_0_exactly_when
  (K : constants) (e : env) (files : gmap string (list byte)) :
  (exists w, run_operation K e GetTokenSetCount files = (Returned 0, w))
  <->
  (exists dev num_ids_path boot_nonce_path signature_path challenge out,
      token_set_count_dispatches K e dev num_ids_path boot_nonce_path
        signature_path challenge /\
      htool_exec_security_v2_cmd e dev
        (token_set_count_request K challenge) (token_set_count_slots K)
      = (0, out)).
Proof.
  split.
  - intros [w Hrun]. revert w Hrun.
    explore; intros w Hrun; inversion Hrun; subst; clear Hrun; booleans;
      try done.
    subst.
    eexists _, _, _, _, _, _.
    repeat split; eauto.
  - intros (dev & p1 & p2 & p3 & ch & out
            & (H1 & H2 & H3 & H4 & H5 & H6 & H7 & H8 & H9) & Hx).
    unfold_requests Hx.
    run_code. by eexists.
Qed.

(** X6.  [htool_get_token_set_info] returns 0 exactly when the device is
    there, [set_index] resolves, [RAND_bytes] returns 1, the output path
    resolves and opens, the module speaks V2 and the dispatcher returns 0.
    What the dispatcher stored into the info, boot-nonce and signature
    locals plays no part. *)
Theorem token_set_info_returns_0_exactly_when
  (K : constants) (e : env) (files : gmap string (list byte)) :
  (exists w, run_operation K e GetTokenSetInfo files = (Returned 0, w))
  <->
  (exists dev info_path challenge set_idx out,
      token_set_info_dispatches K e dev info_path challenge set_idx /\
      htool_exec_security_v2_cmd e dev
        (token_set_info_request K set_idx challenge) (token_set_info_slots K)
      = (0, out)).
Proof.
  split.
  - intros [w Hrun]. revert w Hrun.
    explore; intros w Hrun; inversion Hrun; subst; clear Hrun; booleans;
      try done.
    subst.
    eexists _, _, _, _, _.
    repeat split; eauto.
  - intros (dev & p & ch & idx & out
            & (H1 & H2 & H3 & H4 & H5 & H6) & Hx).
    unfold_requests Hx.
    run_code. by eexists.
Qed.

(** ** Files *)

Ltac not_in_log H :=
  repeat (apply not_elem_of_cons in H as [? H]); clear H.

(** X7.  A run touches no file other than the ones it opened: whatever
    the environment answers and however the run ends, a path that no
    successful [fopen] of the run names holds afterwards what it held
    before. *)
Theorem unopened_files_are_untouched
  (K : constants) (e : env) (files : gmap string (list byte))
  (op : operation) (q : string) :
  q ∉ opened_paths (trace (run_operation K e op files).2) ->
  fs (run_operation K e op files).2 !! q = files !! q.
Proof.
  destruct op; explore; cbn; intros Hq; not_in_log Hq; fs_lookups.
Qed.

Lemma unopened_files_are_untouched_witness :
  fs (run_operation Fixture.K Fixture.tokens_in_set_success GetTokensInSet
        {[ "elsewhere.bin" := [Byte.x2a] ]}).2 !! "elsewhere.bin"
  = ({[ "elsewhere.bin" := [Byte.x2a] ]} : gmap string (list byte))
      !! "elsewhere.bin".
Proof.
  apply (unopened_files_are_untouched
           Fixture.K Fixture.tokens_in_set_success
           {[ "elsewhere.bin" := [Byte.x2a] ]} GetTokensInSet "elsewhere.bin").
  vm_compute.
  intros H.
  repeat (apply elem_of_cons in H as [H|H]; [discriminate H|]).
  by apply elem_of_nil in H.
Defined.

(** X8.  The sinks are opened before anything is validated, so a command
    that fails still destroys what its sinks held: when a command returns a
    non-zero status, every path it opened is an empty file afterwards,
    whatever the file held before. *)
Theorem failed_command_leaves_its_sinks_empty
  (K : constants) (e : env) (files : gmap string (list byte))
  (op : operation) (rv : Z) (w : world) (p : string) :
  run_operation K e op files = (Returned rv, w) ->
  rv <> 0 ->
  p ∈ opened_paths (trace w) ->
  fs w !! p = Some [].
Proof.
  revert w.
  destruct op; explore; intros w Hrun; inversion Hrun; subst; clear Hrun;
    booleans; cbn; intros Hrv Hp; try done; in_log Hp; subst;
    flush_empty; fs_lookups.
Qed.

Lemma failed_command_leaves_its_sinks_empty_witness :
  fs (run_operation Fixture.K Fixture.v3_module GetTokenSetInfo
        {[ "token_set_info.bin" := [Byte.x2a] ]}).2 !! "token_set_info.bin"
  = Some [].
Proof.
  apply (failed_command_leaves_its_sinks_empty
           Fixture.K Fixture.v3_module
           {[ "token_set_info.bin" := [Byte.x2a] ]} GetTokenSetInfo (-1)).
  - vm_compute. reflexivity.
  - lia.
  - vm_compute. apply list_elem_of_here.
Defined.

(** ** What a run never does *)

(** X9.  No command repeats a step: whatever the environment answers, a
    run calls a dispatcher at most once, [RAND_bytes] at most once, probes
    the version at most once and calls [fopen] at most once per sink. *)
Theorem no_step_is_repeated
  (K : constants) (e : env) (files : gmap string (list byte)) (op : operation) :
  let tr := trace (run_operation K e op files).2 in
  (length (dispatch_calls tr) <= 1)%nat /\
  (length (rand_calls tr) <= 1)%nat /\
  (length (version_probes tr) <= 1)%nat /\
  (length (fopens tr) <= sink_count op)%nat.
Proof.
  destruct op; explore; cbn; lia.
Qed.

(** X10.  Nothing is written unless everything before went well: a run in
    which [fwrite] is called at all contains exactly one dispatcher call,
    that call returned status 0, and no call made during the run reported
    a failure.  For [htool_get_tokens_in_set] the first bytes written are
    the tokens field, and that field has passed both size checks. *)
Theorem writes_follow_a_successful_dispatch
  (K : constants) (e : env) (files : gmap string (list byte))
  (op : operation) (k : nat) (bs : list byte) :
  (k, bs) ∈ fwrites (trace (run_operation K e op files).2) ->
  let tr := trace (run_operation K e op files).2 in
  (exists a binding, dispatch_calls tr = [(a, binding, 0)]) /\
  forallb (fun ev => negb (event_failed ev)) tr = true /\
  (op = GetTokensInSet ->
   exists a out tokens,
     Ev_exec_security_v2_serialized_cmd a response_handles (0, out) ∈ tr /\
     store_handles response_handles out (fun _ => None) tokens_param
     = Some tokens /\
     sp_size tokens <= MAX_TOKEN_RESPONSE_SIZE K /\
     sp_size tokens `mod` TOKEN_BYTE_SIZE K = 0 /\
     hd_error (fwrites tr) = Some (0%nat, field tokens)).
Proof.
  destruct op; explore; cbn; intros Hin; in_log Hin; booleans; subst;
    reads_in_bounds;
    (split; [by eexists _, _|]); (split; [done|]); intros Hop; try done;
    eexists _, _, _; (split; [|by repeat split; eauto]);
    repeat first [ apply list_elem_of_here | apply list_elem_of_further ].
Qed.

Lemma writes_follow_a_successful_dispatch_witness :
  let tr := trace (run_operation Fixture.K Fixture.tokens_in_set_success
                     GetTokensInSet ∅).2 in
  (exists a binding, dispatch_calls tr = [(a, binding, 0)]) /\
  forallb (fun ev => negb (event_failed ev)) tr = true /\
  (GetTokensInSet = GetTokensInSet ->
   exists a out tokens,
     Ev_exec_security_v2_serialized_cmd a response_handles (0, out) ∈ tr /\
     store_handles response_handles out (fun _ => None) tokens_param
     = Some tokens /\
     sp_size tokens <= MAX_TOKEN_RESPONSE_SIZE Fixture.K /\
     sp_size tokens `mod` TOKEN_BYTE_SIZE Fixture.K = 0 /\
     hd_error (fwrites tr) = Some (0%nat, field tokens)).
Proof.
  apply (writes_follow_a_successful_dispatch
           Fixture.K Fixture.tokens_in_set_success ∅ GetTokensInSet
           0%nat Fixture.tokens).
  vm_compute. apply list_elem_of_here.
Defined.

(** ** Streams *)

(** X11.  Whether the streams a command opened are closed when it returns
    depends on how it leaves.  The exits through [cleanup] close every
    stream.  The plain [return -1;] taken for a missing output parameter
    or a version other than V2 closes none: every stream opened so far is
    still open when the command returns. *)
Theorem streams_after_return
  (K : constants) (e : env) (files : gmap string (list byte))
  (op : operation) (rv : Z) (w : world) :
  run_operation K e op files = (Returned rv, w) ->
  f_path <$> streams w = opened_paths (trace w) /\
  if existsb leaves_by_return (trace w)
  then forallb f_open (streams w) = true
  else forallb (fun s => negb (f_open s)) (streams w) = true.
Proof.
  revert w.
  destruct op; explore; intros w Hrun; inversion Hrun; subst; clear Hrun;
    by cbn.
Qed.

Lemma streams_after_return_witness :
  let w := (run_operation Fixture.K Fixture.v3_module GetTokensInSet ∅).2 in
  f_path <$> streams w = opened_paths (trace w) /\
  if existsb leaves_by_return (trace w)
  then forallb f_open (streams w) = true
  else forallb (fun s => negb (f_open s)) (streams w) = true.
Proof.
  apply (streams_after_return Fixture.K Fixture.v3_module ∅ GetTokensInSet (-1)).
  vm_compute. reflexivity.
Defined.

(** ** The jump over an initialisation *)

(** X12.  [cleanup] tests a [FILE*] whose initialisation the jump has
    skipped in exactly these cases.  In [htool_get_tokens_in_set]: the
    token sink or the signature sink cannot be opened (the pointer is
    [boot_nonce_output_ptr]).  In [htool_get_token_set_count]: the count
    sink cannot be opened ([boot_nonce_ptr]) or the boot-nonce sink cannot
    ([signature_ptr]).  In [htool_get_token_set_info]: [set_index] does
    not resolve or [RAND_bytes] does not return 1
    ([token_set_info_file_ptr]).  A failure to open the last sink of a
    command is not among them. *)
Theorem cleanup_tests_an_unset_stream_exactly_when
  (K : constants) (e : env) (files : gmap string (list byte))
  (op : operation) (v : file_var) :
  (exists w, run_operation K e op files = (Faulted (Indeterminate_FILE v), w))
  <->
  (exists dev,
      htool_libhoth_device e = Some dev /\
      match op with
      | GetTokensInSet =>
        v = boot_nonce_output_ptr /\
        exists token_path,
          htool_get_param_string e "token_output" = Some token_path /\
          (fopen_wb e token_path = false \/
           fopen_wb e token_path = true /\
           exists signature_path,
             htool_get_param_string e "signature_output" = Some signature_path /\
             fopen_wb e signature_path = false)
      | GetTokenSetCount =>
        exists num_ids_path,
          htool_get_param_string e "num_ids_output" = Some num_ids_path /\
          (v = boot_nonce_ptr /\ fopen_wb e num_ids_path = false \/
           v = signature_ptr /\ fopen_wb e num_ids_path = true /\
           exists boot_nonce_path,
             htool_get_param_string e "boot_nonce_output" = Some boot_nonce_path /\
             fopen_wb e boot_nonce_path = false)
      | GetTokenSetInfo =>
        v = token_set_info_file_ptr /\
        (htool_get_param_u32 e "set_index" = None \/
         (exists set_idx, htool_get_param_u32 e "set_index" = Some set_idx) /\
         (RAND_bytes e (sizeof_nonce K)).1 <> 1)
      end).
Proof.
  split.
  - intros [w Hrun]. revert w Hrun.
    destruct op; explore; intros w Hrun; inversion Hrun; subst; clear Hrun;
      booleans; eexists; (split; [reflexivity|]); cbn; eauto 10.
  - intros (dev & Hdev & H).
    destruct op.
    + destruct H as (-> & tp & Htp & [Ho | (Ho & sp & Hsp & Hso)]);
        run_code; by eexists.
    + destruct H as (np & Hnp & [(-> & Ho) | (-> & Ho & bp & Hbp & Hbo)]);
        run_code; by eexists.
    + destruct H as (-> & [Hi | ([idx Hi] & Hr)]).
      * run_code. by eexists.
      * destruct (RAND_bytes e (sizeof_nonce K)) as [rc bs] eqn:Hrand.
        cbn in Hr. apply Z.eqb_neq in Hr.
        run_code. by eexists.
Qed.

(** ** Diagnostics *)

(** X13.  The diagnostics of a run are determined call by call: a failed
    [fopen] prints the open error for its path, a failed [RAND_bytes] the
    entropy error, a version other than V2 the unsupported-version
    message, a non-zero dispatcher status that status, and a serialized
    dispatch with status 0 the first check the tokens handle fails, if any
    (absent, then too large, then not a multiple of the token size).
    Nothing else is printed: a missing device or parameter is not
    reported by these functions. *)
Theorem diagnostics_follow_the_calls
  (K : constants) (e : env) (files : gmap string (list byte)) (op : operation) :
  let tr := trace (run_operation K e op files).2 in
  prints tr = omap (reported K) tr.
Proof.
  cbn. destruct (run_operation K e op files) as [o w] eqn:Hrun.
  revert o w Hrun.
  destruct op; explore; intros o w Hrun; inversion Hrun; subst; clear Hrun;
    cbn; unfold validation_message;
    repeat match goal with
           | H : ?b = _ |- context [?b] => rewrite H
           end;
    reflexivity.
Qed.

(** ** The commands in the test binary *)

(** X14.  After [TearDown] the device global is null, so every command
    returns -1 from its first test: no test double other than
    [htool_libhoth_device] is called, whatever [fopen] and [RAND_bytes]
    would do. *)
Theorem torn_down_fixture_returns_at_once
  (K : constants) (openable : string -> bool) (rand : Z -> Z * list byte)
  (stack : string -> nat -> byte)
  (files : gmap string (list byte)) (op : operation) :
  run_operation K (Harness.environment Harness.TearDown openable rand stack)
    op files
  = (Returned (-1),
     {| fs := files; streams := []; trace := [Ev_libhoth_device None] |}).
Proof. destruct op; run_code; reflexivity. Qed.

(** X15.  [mock_security_version] is V2 and nothing assigns it, so in the
    test binary no command can take the unsupported-version exit: whatever
    the mock objects answer, every version probe of a run sees V2 and the
    unsupported-version message is never printed. *)
Theorem test_binary_never_sees_another_version
  (K : constants) (g : Harness.globals) (openable : string -> bool)
  (rand : Z -> Z * list byte) (stack : string -> nat -> byte)
  (files : gmap string (list byte)) (op : operation) :
  let tr :=
    trace (run_operation K (Harness.environment g openable rand stack)
             op files).2 in
  (forall v, v ∈ version_probes tr -> v = LIBHOTH_SECURITY_V2) /\
  Msg_v3_not_supported ∉ prints tr.
Proof.
  cbn.
  destruct (run_operation K (Harness.environment g openable rand stack)
              op files)
    as [o w] eqn:Hrun.
  revert o w Hrun.
  destruct op; explore; intros o w Hrun; inversion Hrun; subst; clear Hrun;
    cbn; (split; [intros v Hv; in_log Hv; by subst | ]);
    intros Hin; in_log Hin; discriminate Hin.
Qed.

Ltac unfold_harness :=
  cbv [Harness.environment Harness.SetUp Harness.TearDown Harness.resolving
       Harness.answering Harness.answering_serialized Harness.looked_up
       Harness.double_htool_libhoth_device
       Harness.double_htool_get_param_string
       Harness.double_htool_get_param_u32
       Harness.double_htool_exec_security_v2_cmd
       Harness.double_htool_exec_security_v2_serialized_cmd
       Harness.double_htool_get_security_version
       Harness.mock_security_version
       Harness.g_htool_invocation_mock Harness.g_htool_security_v2_mock
       Harness.g_htool_security_v2_serialized_mock Harness.mock_dev
       Harness.GetParamString Harness.GetParamU32
       Harness.mock_exec_security_v2_cmd
       Harness.mock_exec_security_v2_serialized_cmd
       htool_libhoth_device htool_get_param_string htool_get_param_u32
       fopen_wb RAND_bytes uninitialised htool_get_security_version
       htool_exec_security_v2_cmd htool_exec_security_v2_serialized_cmd].

(** X16.  The CommandFailure tests, for any status: with the fixture set
    up, the parameters resolving, the sinks openable, [RAND_bytes]
    returning 1 and the dispatcher mocks returning a non-zero status, each
    of the three commands returns that status and calls [fwrite] on no
    stream. *)
Theorem command_failure_tests
  (K : constants) (hoth_dev_ : libhoth_device) (st : Z)
  (fixed_out : list (list byte))
  (serialized_out : list (option security_v2_serialized_param))
  (challenge : list byte) (stack : string -> nat -> byte)
  (files : gmap string (list byte)) (op : operation) :
  st <> 0 ->
  let g := Harness.SetUp hoth_dev_ Harness.resolving
             (Harness.answering (st, fixed_out))
             (Harness.answering_serialized (st, serialized_out)) in
  exists w,
    run_operation K
      (Harness.environment g (fun _ => true) (fun _ => (1, challenge)) stack)
      op files
    = (Returned st, w) /\
    fwrites (trace w) = [].
Proof.
  intros Hst. apply Z.eqb_neq in Hst.
  destruct op; cbn;
    repeat (unfold_code; unfold_harness; cbn; rewrite ?Hst);
    by eexists.
Qed.

Lemma command_failure_tests_witness :
  exists w,
    run_operation Fixture.K
      (Harness.environment
         (Harness.SetUp Fixture.dev Harness.resolving
            (Harness.answering (-1, []))
            (Harness.answering_serialized (-1, [])))
         (fun _ => true) (fun _ => (1, Fixture.challenge)) Fixture.stale)
      GetTokenSetInfo ∅
    = (Returned (-1), w) /\
    fwrites (trace w) = [].
Proof.
  apply (command_failure_tests Fixture.K Fixture.dev (-1) [] []
           Fixture.challenge Fixture.stale ∅ GetTokenSetInfo).
  lia.
Defined.

(** ** Examples for the lemmas on handles, nonces and faults *)

Lemma absent_tokens_handle_fails_witness :
  exists w,
    run_operation Fixture.K Scenario.no_handles GetTokensInSet ∅
    = (Returned (-1), w) /\
    fwrites (trace w) = [] /\
    prints (trace w) = [Msg_failed_to_parse_tokens].
Proof.
  apply (absent_tokens_handle_fails
           Fixture.K Scenario.no_handles ∅ Fixture.dev
           "token_output.bin" "signature_output.bin" "boot_nonce_output.bin"
           Fixture.challenge 5 []).
  - repeat split; reflexivity.
  - reflexivity.
  - reflexivity.
Defined.

Lemma absent_boot_nonce_handle_faults_witness :
  exists w,
    run_operation Fixture.K Fixture.tokens_in_set_tokens_only GetTokensInSet ∅
    = (Faulted (Null_dereference boot_nonce_param), w) /\
    fwrites (trace w) = [(0%nat, field (Fixture.param Fixture.tokens))].
Proof.
  apply (absent_boot_nonce_handle_faults
           Fixture.K Fixture.tokens_in_set_tokens_only ∅ Fixture.dev
           "token_output.bin" "signature_output.bin" "boot_nonce_output.bin"
           Fixture.challenge 5 [Some (Fixture.param Fixture.tokens)]).
  - repeat split; reflexivity.
  - reflexivity.
  - reflexivity.
  - reflexivity.
  - vm_compute. split; discriminate.
  - vm_compute. discriminate.
  - reflexivity.
Defined.

Lemma nonce_failure_stops_the_command_witness :
  exists w,
    run_operation Fixture.K Fixture.no_entropy GetTokensInSet ∅
    = (Returned (-1), w) /\
    rand_calls (trace w) = [(0, [])] /\
    dispatch_calls (trace w) = [] /\
    fwrites (trace w) = [].
Proof.
  apply (nonce_failure_stops_the_command
           Fixture.K Fixture.no_entropy ∅ GetTokensInSet 0 []).
  - vm_compute. apply list_elem_of_here.
  - lia.
Defined.

Lemma faults_classified_witness :
  let w := (run_operation Fixture.K Fixture.tokens_in_set_tokens_only
              GetTokensInSet ∅).2 in
  (exists v,
      Null_dereference boot_nonce_param = Indeterminate_FILE v /\
      existsb event_failed (trace w) = true /\
      dispatch_calls (trace w) = [] /\
      fwrites (trace w) = [])
  \/ (GetTokensInSet = GetTokensInSet /\
      existsb (stage_failed Fixture.K) (trace w) = false /\
      (exists a, dispatch_calls (trace w) = [(a, Serialized response_handles, 0)]) /\
      (Null_dereference boot_nonce_param = Null_dereference boot_nonce_param
       \/ Null_dereference boot_nonce_param = Null_dereference sig_param
       \/ Null_dereference boot_nonce_param = Read_out_of_bounds)).
Proof.
  apply (faults_classified
           Fixture.K Fixture.tokens_in_set_tokens_only ∅ GetTokensInSet
           (Null_dereference boot_nonce_param)).
  vm_compute. reflexivity.
Defined.

(** ** Destinations the dispatcher did not fill *)

(** What each destination holds for a dispatcher answer of a given
    shape. *)
Ltac stored_fields :=
  repeat match goal with
         | |- context [store_slots ?ps ?out ?cur ?name] =>
           let stored := eval vm_compute in (store_slots ps out cur name) in
           change (store_slots ps out cur name) with stored
         end;
  cbn.

(** X22.  [htool_get_token_set_count] does not look at what the
    dispatcher stored before writing it.  Once the dispatcher has returned
    0 the command returns 0, and each sink receives the whole of its
    local, declared size and all: the bytes of the i-th field the
    dispatcher stored, and, where it stored fewer bytes or no i-th field
    at all, what the uninitialised local held before. *)
Theorem token_set_count_writes_unfilled_locals
  (K : constants) (e : env) (files : gmap string (list byte))
  (dev : libhoth_device) (num_ids_path boot_nonce_path signature_path : string)
  (challenge : list byte) (out : list (list byte)) :
  token_set_count_dispatches K e dev num_ids_path boot_nonce_path
    signature_path challenge ->
  htool_exec_security_v2_cmd e dev
    (token_set_count_request K challenge) (token_set_count_slots K)
  = (0, out) ->
  exists w,
    run_operation K e GetTokenSetCount files = (Returned 0, w) /\
    sink_writes w
    = [ (num_ids_path,
         object_bytes (uninitialised e "num_ids") (out !! 0%nat)
           sizeof_uint32_t);
        (boot_nonce_path,
         object_bytes (uninitialised e "boot_nonce") (out !! 1%nat)
           (sizeof_boot_nonce K));
        (signature_path,
         object_bytes (uninitialised e "signature") (out !! 2%nat)
           (sizeof_signature K)) ] /\
    (out = [] ->
     sink_writes w
     = [ (num_ids_path,
          uninitialised e "num_ids" <$> seq 0 (Z.to_nat sizeof_uint32_t));
         (boot_nonce_path,
          uninitialised e "boot_nonce"
            <$> seq 0 (Z.to_nat (sizeof_boot_nonce K)));
         (signature_path,
          uninitialised e "signature"
            <$> seq 0 (Z.to_nat (sizeof_signature K))) ]).
Proof.
  intros (H1 & H2 & H3 & H4 & H5 & H6 & H7 & H8 & H9) Hx.
  unfold_requests Hx.
  run_code.
  eexists; split; [reflexivity|].
  destruct out as [|a [|b [|c rest]]]; stored_fields;
    (split; [reflexivity|]); intros Hout; try discriminate Hout.
  by rewrite !object_bytes_unfilled.
Qed.

Lemma token_set_count_writes_unfilled_locals_witness :
  exists w,
    run_operation Fixture.K (Fixture.v2 (0, [Fixture.num_ids]) Fixture.no_serialized)
      GetTokenSetCount ∅
    = (Returned 0, w) /\
    sink_writes w
    = [ ("num_ids_output.bin",
         object_bytes (Fixture.stale "num_ids")
           ([Fixture.num_ids] !! 0%nat) sizeof_uint32_t);
        ("boot_nonce_output.bin",
         object_bytes (Fixture.stale "boot_nonce")
           ([Fixture.num_ids] !! 1%nat) (sizeof_boot_nonce Fixture.K));
        ("signature_output.bin",
         object_bytes (Fixture.stale "signature")
           ([Fixture.num_ids] !! 2%nat) (sizeof_signature Fixture.K)) ] /\
    ([Fixture.num_ids] = [] ->
     sink_writes w
     = [ ("num_ids_output.bin",
          Fixture.stale "num_ids" <$> seq 0 (Z.to_nat sizeof_uint32_t));
         ("boot_nonce_output.bin",
          Fixture.stale "boot_nonce"
            <$> seq 0 (Z.to_nat (sizeof_boot_nonce Fixture.K)));
         ("signature_output.bin",
          Fixture.stale "signature"
            <$> seq 0 (Z.to_nat (sizeof_signature Fixture.K))) ]).
Proof.
  apply (token_set_count_writes_unfilled_locals
           Fixture.K (Fixture.v2 (0, [Fixture.num_ids]) Fixture.no_serialized)
           ∅ Fixture.dev "num_ids_output.bin" "boot_nonce_output.bin"
           "signature_output.bin" Fixture.challenge [Fixture.num_ids]).
  - repeat split; reflexivity.
  - reflexivity.
Defined.

(** X23.  The same for [htool_get_token_set_info]: once the dispatcher
    has returned 0 the command returns 0 and the file holds the whole of
    the [info] local, made of the first field the dispatcher stored and,
    where that is short or missing, of what the uninitialised local held
    before.  The second and third field of the answer have no effect on
    the file. *)
Theorem token_set_info_writes_unfilled_local
  (K : constants) (e : env) (files : gmap string (list byte))
  (dev : libhoth_device) (info_path : string)
  (challenge : list byte) (set_idx : Z) (out : list (list byte)) :
  token_set_info_dispatches K e dev info_path challenge set_idx ->
  htool_exec_security_v2_cmd e dev
    (token_set_info_request K set_idx challenge) (token_set_info_slots K)
  = (0, out) ->
  exists w,
    run_operation K e GetTokenSetInfo files = (Returned 0, w) /\
    fs w !! info_path
    = Some (object_bytes (uninitialised e "info") (out !! 0%nat)
              (sizeof_token_set_info K)) /\
    (out = [] ->
     fs w !! info_path
     = Some (uninitialised e "info"
               <$> seq 0 (Z.to_nat (sizeof_token_set_info K)))).
Proof.
  intros (H1 & H2 & H3 & H4 & H5 & H6) Hx.
  unfold_requests Hx.
  run_code.
  eexists; split; [reflexivity|]. cbn.
  rewrite lookup_fs_flush, lookup_fs_truncate.
  repeat case_decide; try congruence. rewrite overlay_nil_l.
  destruct out as [|a [|b [|c rest]]]; stored_fields;
    (split; [reflexivity|]); intros Hout; try discriminate Hout.
  by rewrite object_bytes_unfilled.
Qed.

Lemma token_set_info_writes_unfilled_local_witness :
  exists w,
    run_operation Fixture.K (Fixture.v2 (0, []) Fixture.no_serialized)
      GetTokenSetInfo ∅
    = (Returned 0, w) /\
    fs w !! "token_set_info.bin"
    = Some (object_bytes (Fixture.stale "info") ([] !! 0%nat)
              (sizeof_token_set_info Fixture.K)) /\
    ([] = ([] : list (list byte)) ->
     fs w !! "token_set_info.bin"
     = Some (Fixture.stale "info"
               <$> seq 0 (Z.to_nat (sizeof_token_set_info Fixture.K)))).
Proof.
  apply (token_set_info_writes_unfilled_local
           Fixture.K (Fixture.v2 (0, []) Fixture.no_serialized)
           ∅ Fixture.dev "token_set_info.bin" Fixture.challenge 5 []).
  - repeat split; reflexivity.
  - reflexivity.
Defined.

(** ** Sinks that share a file *)

(** X21.  When the token and the signature parameter name the same file
    and the boot-nonce parameter another, a successful
    [htool_get_tokens_in_set] still passes the tokens and the signature to
    [fwrite] on two streams of that file, and the file ends up holding the
    signature followed by whatever part of the tokens extends beyond it:
    the tokens are not what the token sink contains. *)
Theorem sinks_sharing_a_file_overwrite
  (K : constants) (e : env) (files : gmap string (list byte)) (w : world)
  (shared boot_nonce_path : string) :
  run_operation K e GetTokensInSet files = (Returned 0, w) ->
  htool_get_param_string e "token_output" = Some shared ->
  htool_get_param_string e "signature_output" = Some shared ->
  htool_get_param_string e "boot_nonce_output" = Some boot_nonce_path ->
  boot_nonce_path <> shared ->
  exists tokens boot_nonce sig,
    sink_writes w = [ (shared, tokens); (boot_nonce_path, boot_nonce);
                      (shared, sig) ] /\
    fs w !! shared = Some (sig ++ drop (length sig) tokens) /\
    fs w !! boot_nonce_path = Some boot_nonce.
Proof.
  intros Hrun Ht Hs Hb Hne.
  apply tokens_in_set_returns_0 in Hrun
    as (dev & tp & sp & bp & ch & idx & out & t & b & s
        & (_ & Ht' & _ & Hs' & _ & Hb' & _) & _ & _ & _ & _ & _ & _ & ->).
  rewrite Ht in Ht'. rewrite Hs in Hs'. rewrite Hb in Hb'.
  injection Ht' as <-. injection Hs' as <-. injection Hb' as <-.
  exists (field t), (field b), (field s).
  split; [done|]. cbn.
  split; fs_lookups; cbn; unfold overlay; cbn;
    by rewrite ?drop_nil, ?app_nil_r.
Qed.

Lemma sinks_sharing_a_file_overwrite_witness :
  let w := (run_operation Fixture.K Scenario.shared_sink GetTokensInSet ∅).2 in
  exists tokens boot_nonce sig,
    sink_writes w = [ ("out.bin", tokens); ("boot_nonce.bin", boot_nonce);
                      ("out.bin", sig) ] /\
    fs w !! "out.bin" = Some (sig ++ drop (length sig) tokens) /\
    fs w !! "boot_nonce.bin" = Some boot_nonce.
Proof.
  apply (sinks_sharing_a_file_overwrite
           Fixture.K Scenario.shared_sink ∅ _ "out.bin" "boot_nonce.bin").
  - vm_compute. reflexivity.
  - reflexivity.
  - reflexivity.
  - reflexivity.
  - discriminate.
Defined.
